(** * MES operations: state machine, metrics and operation service

    A shallow embedding of the core of the MES API
    ([app/domain/operation_state_machine.py],
    [app/domain/manufacturing_rules.py],
    [app/services/mes_operation_service.py], [app/crud/mes_operation.py])
    and the properties the specification states about it. *)

From Stdlib Require Import ZArith QArith String List Bool Lia SpecFloat DecimalString.
From stdpp Require Import gmap strings list fin_maps.

Local Open Scope string_scope.
Local Open Scope Z_scope.

(** ** Python run-time values and exceptions *)

(** The exceptions the modelled code raises.  Message texts that the source
    builds with f-strings over numbers are kept as structured payloads. *)
Inductive quantity_message :=
| ProcessedExceedsDesired (qty_processed qty_desired : Z)
| ScrapExceedsProcessed (qty_scrap qty_processed : Z).

Inductive exn :=
| ValueError (msg : string)
| TypeError
| ZeroDivisionError
| OverflowError
| IntegrityError
| ValidationError
| OperationNotFoundException (order_no : string) (asset_id : Z) (operation_no : string)
| DuplicateOperationException (order_no : string) (asset_id : Z) (operation_no : string)
| InvalidOperationStateException (current_status : option string) (attempted_action : string)
| InvalidQuantityException (message : quantity_message)
| MESOperationException (message error_type : string).

(** [error_type] as set by the constructors in [app/exceptions/mes_exceptions.py];
    built-in exceptions carry none. *)
Definition error_type (e : exn) : option string :=
  match e with
  | OperationNotFoundException _ _ _ => Some "not_found"
  | DuplicateOperationException _ _ _ => Some "duplicate_operation"
  | InvalidOperationStateException _ _ => Some "invalid_state_transition"
  | InvalidQuantityException _ => Some "invalid_quantity"
  | MESOperationException _ t => Some t
  | ValueError _ | TypeError | ZeroDivisionError | OverflowError | IntegrityError
  | ValidationError => None
  end.

Inductive result (A : Type) :=
| Ok (a : A)
| Raise (e : exn).
Arguments Ok {A} a.
Arguments Raise {A} e.

Definition rbind {A B} (r : result A) (k : A -> result B) : result B :=
  match r with
  | Ok a => k a
  | Raise e => Raise e
  end.

(** Values a transition context can hold: the JSON scalars [None], booleans,
    integers and strings. *)
Inductive PyVal :=
| PyNone
| PyBool (b : bool)
| PyInt (z : Z)
| PyStr (s : string).

(** [bool(v)] *)
Definition py_truthy (v : PyVal) : bool :=
  match v with
  | PyNone => false
  | PyBool b => b
  | PyInt z => negb (z =? 0)
  | PyStr s => negb (String.eqb s "")
  end.

(** Numeric view of a value: [bool] is a subclass of [int]. *)
Definition py_num (v : PyVal) : option Z :=
  match v with
  | PyBool b => Some (if b then 1 else 0)
  | PyInt z => Some z
  | _ => None
  end.

(** [a == b] *)
Definition py_eq (a b : PyVal) : bool :=
  match a, b with
  | PyNone, PyNone => true
  | PyStr s, PyStr t => String.eqb s t
  | _, _ =>
      match py_num a, py_num b with
      | Some x, Some y => x =? y
      | _, _ => false
      end
  end.

(** [a >= b]: defined between numbers and between strings, [TypeError]
    otherwise. *)
Definition py_ge (a b : PyVal) : result bool :=
  match a, b with
  | PyStr s, PyStr t => Ok (String.leb t s)
  | _, _ =>
      match py_num a, py_num b with
      | Some x, Some y => Ok (y <=? x)
      | _, _ => Raise TypeError
      end
  end.

(** A context is a [dict] with string keys. *)
Abbreviation Context := (gmap string PyVal).

(** [ctx.get(key, default)] and [ctx.get(key)] *)
Definition ctx_get (ctx : Context) (key : string) (default : PyVal) : PyVal :=
  match ctx !! key with
  | Some v => v
  | None => default
  end.

(** [x in xs] on a list of values *)
Definition py_in (x : PyVal) (xs : list PyVal) : bool :=
  existsb (py_eq x) xs.

(** [d.get(key)] on a dict literal written as an association list (first
    binding of a key found; the literals below have no duplicate keys). *)
Fixpoint dict_get {V} (d : list (string * V)) (key : string) : option V :=
  match d with
  | [] => None
  | (k, v) :: d' => if String.eqb k key then Some v else dict_get d' key
  end.

(** ** The operation state machine ([app/domain/operation_state_machine.py]) *)

Module StateMachine.

Inductive OperationStatus :=
| PLANNED
| RELEASED
| IN_PROGRESS
| ON_HOLD
| FINISHED
| CANCELLED.

Definition all_statuses : list OperationStatus :=
  [PLANNED; RELEASED; IN_PROGRESS; ON_HOLD; FINISHED; CANCELLED].

(** [status.value] *)
Definition value (s : OperationStatus) : string :=
  match s with
  | PLANNED => "PLANNED"
  | RELEASED => "RELEASED"
  | IN_PROGRESS => "IN_PROGRESS"
  | ON_HOLD => "ON_HOLD"
  | FINISHED => "FINISHED"
  | CANCELLED => "CANCELLED"
  end.

Definition status_eqb (a b : OperationStatus) : bool :=
  match a, b with
  | PLANNED, PLANNED | RELEASED, RELEASED | IN_PROGRESS, IN_PROGRESS
  | ON_HOLD, ON_HOLD | FINISHED, FINISHED | CANCELLED, CANCELLED => true
  | _, _ => false
  end.

(** [OperationStatus(name)]: the enum lookup by value; [None] stands for the
    [ValueError] raised on a string that names no member. *)
Definition OperationStatus_of (name : string) : option OperationStatus :=
  find (fun s => String.eqb (value s) name) all_statuses.

Record StateTransition := {
  from_state : OperationStatus;
  to_state : OperationStatus;
  conditions : list string;
  effects : list string;
  requires_confirmation : bool
}.

(** The transition table; every member is a key of the source dict, so
    [self._transitions.get(s, [])] never takes its default. *)
Definition _define_transitions (s : OperationStatus) : list StateTransition :=
  match s with
  | PLANNED =>
      [ {| from_state := PLANNED; to_state := RELEASED;
           conditions := ["has_required_materials"; "machine_available"];
           effects := ["notify_operator"; "reserve_capacity"];
           requires_confirmation := false |};
        {| from_state := PLANNED; to_state := CANCELLED;
           conditions := ["authorized_cancellation"];
           effects := ["release_reservations"; "update_schedule"];
           requires_confirmation := true |} ]
  | RELEASED =>
      [ {| from_state := RELEASED; to_state := IN_PROGRESS;
           conditions := ["operator_available"; "setup_complete"];
           effects := ["start_time_tracking"; "update_machine_status"];
           requires_confirmation := false |};
        {| from_state := RELEASED; to_state := ON_HOLD;
           conditions := ["hold_reason_provided"];
           effects := ["pause_schedule"; "notify_planning"];
           requires_confirmation := false |};
        {| from_state := RELEASED; to_state := CANCELLED;
           conditions := ["authorized_cancellation"];
           effects := ["release_reservations"; "update_schedule"];
           requires_confirmation := true |} ]
  | IN_PROGRESS =>
      [ {| from_state := IN_PROGRESS; to_state := FINISHED;
           conditions := ["quality_approved"; "quantity_complete"];
           effects := ["calculate_actuals"; "update_inventory"; "release_capacity"];
           requires_confirmation := false |};
        {| from_state := IN_PROGRESS; to_state := ON_HOLD;
           conditions := ["hold_reason_provided"];
           effects := ["pause_time_tracking"; "notify_planning"];
           requires_confirmation := false |};
        {| from_state := IN_PROGRESS; to_state := CANCELLED;
           conditions := ["authorized_cancellation"; "work_stoppage_approved"];
           effects := ["handle_wip"; "calculate_partial_actuals"];
           requires_confirmation := true |} ]
  | ON_HOLD =>
      [ {| from_state := ON_HOLD; to_state := IN_PROGRESS;
           conditions := ["hold_reason_resolved"; "resources_available"];
           effects := ["resume_time_tracking"; "update_machine_status"];
           requires_confirmation := false |};
        {| from_state := ON_HOLD; to_state := CANCELLED;
           conditions := ["authorized_cancellation"];
           effects := ["handle_wip"; "release_reservations"];
           requires_confirmation := true |} ]
  | FINISHED => []
  | CANCELLED => []
  end.

Definition _terminal_states : list OperationStatus := [FINISHED; CANCELLED].

(** The checkers of [_check_conditions]; each returns the Python value its
    lambda evaluates to, or raises. *)
Definition condition_checkers : list (string * (Context -> result PyVal)) :=
  [ ("has_required_materials",
      fun ctx => Ok (ctx_get ctx "materials_available" (PyBool true)));
    ("machine_available",
      fun ctx => Ok (PyBool (negb (py_eq (ctx_get ctx "machine_status" PyNone) (PyStr "DOWN")))));
    ("authorized_cancellation",
      fun ctx => Ok (PyBool (py_in (ctx_get ctx "user_role" PyNone)
                                   [PyStr "supervisor"; PyStr "manager"])));
    ("operator_available",
      fun ctx => Ok (ctx_get ctx "operator_assigned" (PyBool true)));
    ("setup_complete",
      fun ctx => Ok (PyBool (py_eq (ctx_get ctx "setup_status" PyNone) (PyStr "COMPLETE"))));
    ("hold_reason_provided",
      fun ctx => Ok (PyBool (py_truthy (ctx_get ctx "hold_reason" PyNone))));
    ("quality_approved",
      fun ctx => Ok (PyBool (py_eq (ctx_get ctx "quality_status" PyNone) (PyStr "APPROVED"))));
    ("quantity_complete",
      fun ctx => rbind (py_ge (ctx_get ctx "qty_processed" (PyInt 0))
                              (ctx_get ctx "qty_desired" (PyInt 1)))
                       (fun b => Ok (PyBool b)));
    ("hold_reason_resolved",
      fun ctx => Ok (ctx_get ctx "hold_resolved" (PyBool false)));
    ("resources_available",
      fun ctx => Ok (ctx_get ctx "resources_ready" (PyBool true)));
    ("work_stoppage_approved",
      fun ctx => Ok (ctx_get ctx "stoppage_approved" (PyBool false))) ].

(** What one named precondition answers on a context, for the statements
    below; a name without a checker is skipped by the loop, which amounts to
    a met precondition. *)
Definition condition_result (condition : string) (context : Context) : result bool :=
  match dict_get condition_checkers condition with
  | Some checker => rbind (checker context) (fun v => Ok (py_truthy v))
  | None => Ok true
  end.

(** The loop of [_check_conditions] over the remaining condition names. *)
Fixpoint check_conditions_loop (conds : list string) (context : Context) : result bool :=
  match conds with
  | [] => Ok true
  | condition :: rest =>
      match dict_get condition_checkers condition with
      | Some checker =>
          rbind (checker context) (fun v =>
            if negb (py_truthy v) then Ok false
            else check_conditions_loop rest context)
      | None => check_conditions_loop rest context
      end
  end.

Definition _check_conditions (transition : StateTransition) (context : Context) : result bool :=
  check_conditions_loop (conditions transition) context.

(** [context or {}] *)
Definition context_or_empty (context : option Context) : Context :=
  match context with
  | Some ctx => ctx
  | None => ∅
  end.

(** The first entry of the list whose target is [to_status], as both loops
    over [self._transitions.get(from_status, [])] find it. *)
Definition find_transition (from_status to_status : OperationStatus) : option StateTransition :=
  find (fun t => status_eqb (to_state t) to_status) (_define_transitions from_status).

Definition can_transition (from_state to_state : string) (context : option Context) : result bool :=
  match OperationStatus_of from_state, OperationStatus_of to_state with
  | Some from_status, Some to_status =>
      if status_eqb from_status to_status then Ok true
      else
        match find_transition from_status to_status with
        | Some transition => _check_conditions transition (context_or_empty context)
        | None => Ok false
        end
  | _, _ => Ok false
  end.

Definition get_valid_transitions (current_state : string) : list string :=
  match OperationStatus_of current_state with
  | Some current_status => map (fun t => value (to_state t)) (_define_transitions current_status)
  | None => []
  end.

Definition is_terminal_state (state : string) : bool :=
  match OperationStatus_of state with
  | Some status => existsb (status_eqb status) _terminal_states
  | None => false
  end.

(** Every handler of [_execute_single_effect] only logs, and an unknown
    effect name only logs a warning: no effect raises. *)
Definition effect_handlers : list string :=
  [ "notify_operator"; "reserve_capacity"; "release_reservations";
    "update_schedule"; "start_time_tracking"; "update_machine_status";
    "pause_schedule"; "notify_planning"; "calculate_actuals";
    "update_inventory"; "release_capacity"; "pause_time_tracking";
    "handle_wip"; "calculate_partial_actuals"; "resume_time_tracking" ].

Definition _execute_single_effect (effect : string) (context : Context)
    (user_id : option string) : result unit :=
  if existsb (String.eqb effect) effect_handlers then Ok tt else Ok tt.

(** [_execute_effects]: an effect is recorded as executed unless it raised. *)
Fixpoint execute_effects_loop (effs : list string) (context : Context)
    (user_id : option string) : list string :=
  match effs with
  | [] => []
  | effect :: rest =>
      match _execute_single_effect effect context user_id with
      | Ok _ => effect :: execute_effects_loop rest context user_id
      | Raise _ => execute_effects_loop rest context user_id
      end
  end.

Definition _execute_effects (transition : StateTransition) (context : Context)
    (user_id : option string) : list string :=
  execute_effects_loop (effects transition) context user_id.

(** The dict returned by [transition]; [timestamp] is the clock reading
    [datetime.utcnow()] (rendered with [isoformat] in the source). *)
Record TransitionResult := {
  r_from_state : string;
  r_to_state : string;
  r_timestamp : Z;
  r_user_id : option string;
  r_effects_executed : list string;
  r_requires_confirmation : bool
}.

Definition transition (from_state to_state : string) (context : option Context)
    (user_id : option string) (utcnow : Z) : result TransitionResult :=
  rbind (can_transition from_state to_state context) (fun allowed =>
    if negb allowed then
      Raise (ValueError ("Invalid transition: " ++ from_state ++ " -> " ++ to_state))
    else
      match OperationStatus_of from_state, OperationStatus_of to_state with
      | Some from_status, Some to_status =>
          match find_transition from_status to_status with
          | None =>
              Raise (ValueError ("Transition not found: " ++ from_state ++ " -> " ++ to_state))
          | Some t =>
              let effects_executed := _execute_effects t (context_or_empty context) user_id in
              Ok {| r_from_state := from_state;
                    r_to_state := to_state;
                    r_timestamp := utcnow;
                    r_user_id := user_id;
                    r_effects_executed := effects_executed;
                    r_requires_confirmation := requires_confirmation t |}
          end
      | _, _ =>
          (* not reached: [can_transition] answered [True], so both names parsed *)
          Raise (ValueError "Invalid status values")
      end).

End StateMachine.

(** ** The operation record and its schemas *)

(** A timezone-aware [datetime], as microseconds since the epoch. *)
Abbreviation datetime := Z.

(** A finite [Decimal] (SQL [Numeric]), as the rational it denotes. *)
Abbreviation Decimal := Q.

(** A row of [mes_operations] ([app/models/mes_operation.py]); a nullable
    column is an [option]. *)
Record MESOperation := {
  order_no : string;
  asset_id : Z;
  operation_no : string;
  reference_url : option string;
  status : option string;
  activity_code : option string;
  activity_description : option string;
  workplace_name : option string;
  workplace_group : option string;
  qty_desired : option Z;
  qty_processed : option Z;
  qty_scrap : option Z;
  planned_start_at : option datetime;
  planned_end_at : option datetime;
  actual_start_at : option datetime;
  actual_end_at : option datetime;
  t_target_processing_min : option Decimal;
  t_target_setup_min : option Decimal;
  t_target_lead_min : option Decimal;
  t_actual_processing_min : option Decimal;
  t_actual_setup_min : option Decimal;
  t_actual_lead_min : option Decimal;
  timestamp_ms : option datetime;
  change_type : option string
}.

Inductive ChangeType := INSERT | UPDATE | DELETE.

Definition change_type_value (c : ChangeType) : string :=
  match c with
  | INSERT => "INSERT"
  | UPDATE => "UPDATE"
  | DELETE => "DELETE"
  end.

(** [MESOperationCreate] ([app/schemas/mes_operation.py]). *)
Record MESOperationCreate := {
  c_order_no : string;
  c_asset_id : Z;
  c_operation_no : string;
  c_reference_url : option string;
  c_status : option string;
  c_activity_code : option string;
  c_activity_description : option string;
  c_workplace_name : option string;
  c_workplace_group : option string;
  c_qty_desired : option Z;
  c_qty_processed : option Z;
  c_qty_scrap : option Z;
  c_planned_start_at : option datetime;
  c_planned_end_at : option datetime;
  c_actual_start_at : option datetime;
  c_actual_end_at : option datetime;
  c_t_target_processing_min : option Decimal;
  c_t_target_setup_min : option Decimal;
  c_t_target_lead_min : option Decimal;
  c_t_actual_processing_min : option Decimal;
  c_t_actual_setup_min : option Decimal;
  c_t_actual_lead_min : option Decimal;
  c_timestamp_ms : datetime;
  c_change_type : ChangeType
}.

(** The row built from [operation.model_dump()]: every field is copied. *)
Definition model_of_create (c : MESOperationCreate) : MESOperation :=
  {| order_no := c_order_no c;
     asset_id := c_asset_id c;
     operation_no := c_operation_no c;
     reference_url := c_reference_url c;
     status := c_status c;
     activity_code := c_activity_code c;
     activity_description := c_activity_description c;
     workplace_name := c_workplace_name c;
     workplace_group := c_workplace_group c;
     qty_desired := c_qty_desired c;
     qty_processed := c_qty_processed c;
     qty_scrap := c_qty_scrap c;
     planned_start_at := c_planned_start_at c;
     planned_end_at := c_planned_end_at c;
     actual_start_at := c_actual_start_at c;
     actual_end_at := c_actual_end_at c;
     t_target_processing_min := c_t_target_processing_min c;
     t_target_setup_min := c_t_target_setup_min c;
     t_target_lead_min := c_t_target_lead_min c;
     t_actual_processing_min := c_t_actual_processing_min c;
     t_actual_setup_min := c_t_actual_setup_min c;
     t_actual_lead_min := c_t_actual_lead_min c;
     timestamp_ms := Some (c_timestamp_ms c);
     change_type := Some (change_type_value (c_change_type c)) |}.

(** [MESOperationUpdate]: every field is optional and remembers whether it
    was set.  [None] is an unset field, [Some None] a field set to [None],
    [Some (Some v)] a field set to [v]; [model_dump(exclude_unset=True)] is
    the map of the fields that are [Some _]. *)
Record MESOperationUpdate := {
  u_reference_url : option (option string);
  u_status : option (option string);
  u_activity_code : option (option string);
  u_activity_description : option (option string);
  u_workplace_name : option (option string);
  u_workplace_group : option (option string);
  u_qty_desired : option (option Z);
  u_qty_processed : option (option Z);
  u_qty_scrap : option (option Z);
  u_planned_start_at : option (option datetime);
  u_planned_end_at : option (option datetime);
  u_actual_start_at : option (option datetime);
  u_actual_end_at : option (option datetime);
  u_t_target_processing_min : option (option Decimal);
  u_t_target_setup_min : option (option Decimal);
  u_t_target_lead_min : option (option Decimal);
  u_t_actual_processing_min : option (option Decimal);
  u_t_actual_setup_min : option (option Decimal);
  u_t_actual_lead_min : option (option Decimal);
  u_timestamp_ms : option (option datetime);
  u_change_type : option (option ChangeType)
}.

(** The [ge=0] constraint of a schema field: it holds of an unset field and of
    one set to [None]. *)
Definition field_ge0_Z (f : option (option Z)) : bool :=
  match f with
  | Some (Some z) => 0 <=? z
  | _ => true
  end.

Definition field_ge0_Q (f : option (option Decimal)) : bool :=
  match f with
  | Some (Some q) => Qle_bool 0 q
  | _ => true
  end.

(** Pydantic validation of the fields passed to [MESOperationUpdate(...)]. *)
Definition update_fields_valid (u : MESOperationUpdate) : bool :=
  field_ge0_Z (u_qty_desired u) && field_ge0_Z (u_qty_processed u)
  && field_ge0_Z (u_qty_scrap u)
  && field_ge0_Q (u_t_target_processing_min u) && field_ge0_Q (u_t_target_setup_min u)
  && field_ge0_Q (u_t_target_lead_min u) && field_ge0_Q (u_t_actual_processing_min u)
  && field_ge0_Q (u_t_actual_setup_min u) && field_ge0_Q (u_t_actual_lead_min u).

Definition new_MESOperationUpdate (u : MESOperationUpdate) : result MESOperationUpdate :=
  if update_fields_valid u then Ok u else Raise ValidationError.

(** [update_dict.get(field, existing.field)] *)
Definition dict_get_default {A} (set_field : option (option A)) (existing : option A) : option A :=
  match set_field with
  | Some v => v
  | None => existing
  end.

(** The loop [for field, value in update_data.items(): setattr(...)]: each
    set field replaces the column, the others are left alone. *)
Definition apply_update (u : MESOperationUpdate) (op : MESOperation) : MESOperation :=
  {| order_no := order_no op;
     asset_id := asset_id op;
     operation_no := operation_no op;
     reference_url := dict_get_default (u_reference_url u) (reference_url op);
     status := dict_get_default (u_status u) (status op);
     activity_code := dict_get_default (u_activity_code u) (activity_code op);
     activity_description :=
       dict_get_default (u_activity_description u) (activity_description op);
     workplace_name := dict_get_default (u_workplace_name u) (workplace_name op);
     workplace_group := dict_get_default (u_workplace_group u) (workplace_group op);
     qty_desired := dict_get_default (u_qty_desired u) (qty_desired op);
     qty_processed := dict_get_default (u_qty_processed u) (qty_processed op);
     qty_scrap := dict_get_default (u_qty_scrap u) (qty_scrap op);
     planned_start_at := dict_get_default (u_planned_start_at u) (planned_start_at op);
     planned_end_at := dict_get_default (u_planned_end_at u) (planned_end_at op);
     actual_start_at := dict_get_default (u_actual_start_at u) (actual_start_at op);
     actual_end_at := dict_get_default (u_actual_end_at u) (actual_end_at op);
     t_target_processing_min :=
       dict_get_default (u_t_target_processing_min u) (t_target_processing_min op);
     t_target_setup_min := dict_get_default (u_t_target_setup_min u) (t_target_setup_min op);
     t_target_lead_min := dict_get_default (u_t_target_lead_min u) (t_target_lead_min op);
     t_actual_processing_min :=
       dict_get_default (u_t_actual_processing_min u) (t_actual_processing_min op);
     t_actual_setup_min := dict_get_default (u_t_actual_setup_min u) (t_actual_setup_min op);
     t_actual_lead_min := dict_get_default (u_t_actual_lead_min u) (t_actual_lead_min op);
     timestamp_ms := dict_get_default (u_timestamp_ms u) (timestamp_ms op);
     change_type :=
       dict_get_default (option_map (option_map change_type_value) (u_change_type u))
                        (change_type op) |}.

(** Truthiness of a number: zero is false. *)
Definition int_truthy (n : Z) : bool := negb (n =? 0).
Definition decimal_truthy (d : Decimal) : bool := negb (Qnum d =? 0).

(** Truthiness of an optional object that is never falsy itself
    (a [datetime], a row). *)
Definition truthy_obj {A} (o : option A) : bool :=
  match o with
  | Some _ => true
  | None => false
  end.

(** ** Derived metrics ([app/domain/manufacturing_rules.py]) *)

Module ManufacturingRules.

(** *** Python floats: IEEE 754 binary64, rounding to nearest, ties to even *)

Abbreviation float := spec_float.

Definition prec : Z := 53.
Definition emax : Z := 1024.

(** The float nearest to the ratio [n / d] of two integers: the quotient is
    cut at the exponent of the result and rounded by its remainder. *)
Definition float_of_ratio (n : Z) (d : positive) : float :=
  match n with
  | Z0 => S754_zero false
  | Zpos p =>
      let '(mz, ez, lz) := SFdiv_core_binary prec emax (Zpos p) 0 (Zpos d) 0 in
      binary_round_aux prec emax false mz ez lz
  | Zneg p =>
      let '(mz, ez, lz) := SFdiv_core_binary prec emax (Zpos p) 0 (Zpos d) 0 in
      binary_round_aux prec emax true mz ez lz
  end.

(** [float(n)] of an [int]: [OverflowError] beyond the largest float. *)
Definition float_of_int (n : Z) : result float :=
  match float_of_ratio n 1 with
  | S754_infinity _ => Raise OverflowError
  | f => Ok f
  end.

(** [float(d)] of a [Decimal]: the nearest float, which is zero for a
    magnitude below half the smallest subnormal and infinite beyond the
    largest float. *)
Definition float_of_decimal (d : Decimal) : float :=
  float_of_ratio (Qnum d) (Qden d).

(** A float literal that is an integer. *)
Definition float_lit (n : Z) : float := float_of_ratio n 1.

(** [a / b] on floats: [ZeroDivisionError] on a zero divisor. *)
Definition py_truediv (a b : float) : result float :=
  match b with
  | S754_zero _ => Raise ZeroDivisionError
  | _ => Ok (SFdiv prec emax a b)
  end.

(** [a - b] on floats *)
Definition py_sub (a b : float) : float := SFsub prec emax a b.

(** Nearest integer, ties to even. *)
Definition round_half_even (q : Q) : Z :=
  let n := Qnum q in
  let d := Z.pos (Qden q) in
  let f := n / d in
  let r2 := 2 * (n mod d) in
  if r2 <? d then f
  else if d <? r2 then f + 1
  else if Z.even f then f else f + 1.

(** The rational a finite float denotes. *)
Definition Q_of_finite (s : bool) (m : positive) (e : Z) : Q :=
  let mantissa := if s then Z.neg m else Z.pos m in
  match e with
  | Z0 => inject_Z mantissa
  | Zpos k => inject_Z (mantissa * 2 ^ Z.pos k)
  | Zneg k => mantissa # (2 ^ k)
  end.

(** [round(x, ndigits)] for [ndigits >= 0]: the exact value of [x] is rounded
    to [ndigits] decimals, ties to even, and the decimal is read back as a
    float; an infinity or a NaN is returned as it is. *)
Definition py_round (x : float) (ndigits : Z) : result float :=
  match x with
  | S754_finite s m e =>
      let scale := 10 ^ ndigits in
      let units := round_half_even (Q_of_finite s m e * inject_Z scale) in
      match float_of_ratio units (Z.to_pos scale) with
      | S754_infinity _ => Raise OverflowError
      | S754_zero _ => Ok (S754_zero s)
      | f => Ok f
      end
  | _ => Ok x
  end.

(** [min(a, b)]: the first argument unless the second is smaller. *)
Definition py_min (a b : float) : float :=
  if SFltb b a then b else a.

(** [d > 0] on a [Decimal] *)
Definition decimal_pos (d : Decimal) : bool := 0 <? Qnum d.

(** [(a - b).total_seconds()]: the microseconds divided by [10**6], rounded
    once. *)
Definition total_seconds (a b : datetime) : float :=
  float_of_ratio (a - b) 1000000.

(** *** [calculate_operation_metrics] *)

Abbreviation Metrics := (gmap string float).

Definition efficiency_metric (operation : MESOperation) (metrics : Metrics) : result Metrics :=
  match t_target_processing_min operation, t_actual_processing_min operation with
  | Some target, Some actual =>
      if decimal_truthy target && decimal_truthy actual then
        if decimal_pos actual then
          rbind (py_truediv (float_of_decimal target) (float_of_decimal actual))
            (fun efficiency =>
          rbind (py_round efficiency 3) (fun rounded =>
            Ok (<["processing_efficiency" := rounded]> metrics)))
        else Ok metrics
      else Ok metrics
  | _, _ => Ok metrics
  end.

Definition throughput_metric (operation : MESOperation) (metrics : Metrics) : result Metrics :=
  match qty_processed operation, t_actual_processing_min operation with
  | Some processed, Some actual =>
      if int_truthy processed && decimal_truthy actual then
        if decimal_pos actual then
          rbind (float_of_int processed) (fun pieces =>
          rbind (py_truediv (float_of_decimal actual) (float_lit 60)) (fun hours =>
          rbind (py_truediv pieces hours) (fun throughput =>
          rbind (py_round throughput 2) (fun rounded =>
            Ok (<["throughput_per_hour" := rounded]> metrics)))))
        else Ok metrics
      else Ok metrics
  | _, _ => Ok metrics
  end.

Definition quality_metrics (operation : MESOperation) (metrics : Metrics) : result Metrics :=
  match qty_processed operation, qty_scrap operation with
  | Some processed, Some scrap =>
      if int_truthy processed && int_truthy scrap then
        if 0 <? processed then
          rbind (float_of_int scrap) (fun scrapped =>
          rbind (float_of_int processed) (fun pieces =>
          rbind (py_truediv scrapped pieces) (fun scrap_rate =>
          rbind (py_round scrap_rate 4) (fun rounded_scrap =>
          rbind (py_round (py_sub (float_lit 1) scrap_rate) 4) (fun rounded_quality =>
            Ok (<["quality_rate" := rounded_quality]>
                  (<["scrap_rate" := rounded_scrap]> metrics)))))))
        else Ok metrics
      else Ok metrics
  | _, _ => Ok metrics
  end.

Definition variance_metric (key : string) (planned actual : option datetime)
    (metrics : Metrics) : result Metrics :=
  match planned, actual with
  | Some p, Some a =>
      rbind (py_truediv (total_seconds a p) (float_lit 3600)) (fun variance =>
      rbind (py_round variance 2) (fun rounded =>
        Ok (<[key := rounded]> metrics)))
  | _, _ => Ok metrics
  end.

Definition completion_metric (operation : MESOperation) (metrics : Metrics) : result Metrics :=
  match qty_desired operation, qty_processed operation with
  | Some desired, Some processed =>
      if int_truthy desired && int_truthy processed then
        rbind (float_of_int processed) (fun pieces =>
        rbind (float_of_int desired) (fun wanted =>
        rbind (py_truediv pieces wanted) (fun completion =>
        rbind (py_round (py_min completion (float_lit 1)) 3) (fun rounded =>
          Ok (<["completion_percentage" := rounded]> metrics)))))
      else Ok metrics
  | _, _ => Ok metrics
  end.

Definition calculate_operation_metrics (operation : MESOperation) : result Metrics :=
  rbind (efficiency_metric operation ∅) (fun metrics =>
  rbind (throughput_metric operation metrics) (fun metrics =>
  rbind (quality_metrics operation metrics) (fun metrics =>
  rbind (variance_metric "start_time_variance_hours"
           (planned_start_at operation) (actual_start_at operation) metrics) (fun metrics =>
  rbind (variance_metric "end_time_variance_hours"
           (planned_end_at operation) (actual_end_at operation) metrics) (fun metrics =>
  completion_metric operation metrics))))).

(** An operation with a target time of thirty minutes and an actual time of
    [Decimal("1E-400")] minutes: a positive decimal below every positive
    float. *)
Definition underflow_operation : MESOperation :=
  {| order_no := "WO-1"; asset_id := 1; operation_no := "0010";
     reference_url := None; status := Some "IN_PROGRESS";
     activity_code := Some "LASER"; activity_description := None;
     workplace_name := Some "TruLaser 5060 (L76)"; workplace_group := None;
     qty_desired := Some 100; qty_processed := Some 40; qty_scrap := Some 0;
     planned_start_at := None; planned_end_at := None;
     actual_start_at := None; actual_end_at := None;
     t_target_processing_min := Some (30 # 1)%Q; t_target_setup_min := None;
     t_target_lead_min := None;
     t_actual_processing_min := Some (1 # Z.to_pos (10 ^ 400))%Q;
     t_actual_setup_min := None; t_actual_lead_min := None;
     timestamp_ms := Some 0; change_type := Some "INSERT" |}.

(** The same operation with an actual time of forty minutes. *)
Definition timed_operation : MESOperation :=
  {| order_no := "WO-1"; asset_id := 1; operation_no := "0010";
     reference_url := None; status := Some "IN_PROGRESS";
     activity_code := Some "LASER"; activity_description := None;
     workplace_name := Some "TruLaser 5060 (L76)"; workplace_group := None;
     qty_desired := Some 100; qty_processed := Some 40; qty_scrap := Some 2;
     planned_start_at := Some 0; planned_end_at := None;
     actual_start_at := Some 5400000000; actual_end_at := None;
     t_target_processing_min := Some (30 # 1)%Q; t_target_setup_min := None;
     t_target_lead_min := None;
     t_actual_processing_min := Some (40 # 1)%Q;
     t_actual_setup_min := None; t_actual_lead_min := None;
     timestamp_ms := Some 0; change_type := Some "INSERT" |}.

(** An operand that is missing or zero, for the statements below. *)
Definition absent_or_zero_int (o : option Z) : Prop :=
  forall n, o = Some n -> n = 0.

Definition absent_or_zero_decimal (o : option Decimal) : Prop :=
  forall d, o = Some d -> (d == 0)%Q.

(** *** The validation rules over quantities and status

    The rules read an [operation_data] dict with [.get]; a key that is
    missing and a key that holds [None] read the same, so the dict is the
    record of the values read, with the types the schemas give them. *)
Record OperationData := {
  d_status : option string;
  d_qty_desired : option Z;
  d_qty_processed : option Z;
  d_qty_scrap : option Z;
  d_actual_start_at : option datetime;
  d_actual_end_at : option datetime
}.

(** [str(n)] of an [int] *)
Definition str_of_int (n : Z) : string := NilZero.string_of_int (Z.to_int n).

(** [if test: errors.append(message)] *)
Definition error_when (test : bool) (message : string) : list string :=
  if test then [message] else [].

(** [value is not None and test(value)] *)
Definition present_and (value : option Z) (test : Z -> bool) : bool :=
  match value with
  | Some n => test n
  | None => false
  end.

(** [a and b and test(a, b)] on optional ints: each must be present and
    non-zero. *)
Definition both_and (a b : option Z) (test : Z -> Z -> bool) : bool :=
  match a, b with
  | Some x, Some y => int_truthy x && int_truthy y && test x y
  | _, _ => false
  end.

(** The message of an f-string over two optional ints that the guard found
    present. *)
Definition message2 (head : string) (a : option Z) (middle : string) (b : option Z)
    (tail : string) : string :=
  head ++ str_of_int (default 0 a) ++ middle ++ str_of_int (default 0 b) ++ tail.

(** [validate_quantity_relationships]; the scrap-rate warning at its end only
    logs. *)
Definition validate_quantity_relationships (operation_data : OperationData) : list string :=
  let qty_desired := d_qty_desired operation_data in
  let qty_processed := d_qty_processed operation_data in
  let qty_scrap := d_qty_scrap operation_data in
  (error_when (present_and qty_desired (fun d => d <=? 0))
     "Desired quantity must be positive"
   ++ error_when (present_and qty_processed (fun p => p <? 0))
     "Processed quantity cannot be negative"
   ++ error_when (present_and qty_scrap (fun s => s <? 0))
     "Scrap quantity cannot be negative"
   ++ error_when (both_and qty_desired qty_processed (fun d p => d <? p))
     (message2 "Processed quantity (" qty_processed
               ") cannot exceed desired quantity (" qty_desired ")")
   ++ error_when (both_and qty_processed qty_scrap (fun p s => p <? s))
     (message2 "Scrap quantity (" qty_scrap
               ") cannot exceed processed quantity (" qty_processed ")"))%list.

(** [not qty] on an optional int *)
Definition not_int (value : option Z) : bool :=
  match value with
  | Some n => negb (int_truthy n)
  | None => true
  end.

(** [status == name] on an optional string *)
Definition status_is (value : option string) (name : string) : bool :=
  match value with
  | Some s => String.eqb s name
  | None => false
  end.

Definition validate_status_constraints (operation_data : OperationData) : list string :=
  let qty_processed := d_qty_processed operation_data in
  let actual_start := d_actual_start_at operation_data in
  let actual_end := d_actual_end_at operation_data in
  if status_is (d_status operation_data) "IN_PROGRESS" then
    error_when (negb (truthy_obj actual_start))
      "Operations in progress must have an actual start time"
  else if status_is (d_status operation_data) "FINISHED" then
    (error_when (negb (truthy_obj actual_start))
       "Finished operations must have an actual start time"
     ++ error_when (negb (truthy_obj actual_end))
       "Finished operations must have an actual end time"
     ++ error_when (not_int qty_processed)
       "Finished operations must have processed quantity > 0")%list
  else [].

(** The values the two rules read from a stored operation. *)
Definition data_of_operation (operation : MESOperation) : OperationData :=
  {| d_status := status operation;
     d_qty_desired := qty_desired operation;
     d_qty_processed := qty_processed operation;
     d_qty_scrap := qty_scrap operation;
     d_actual_start_at := actual_start_at operation;
     d_actual_end_at := actual_end_at operation |}.

End ManufacturingRules.

(** ** The storage collaborator and the operation service
    ([app/crud/mes_operation.py], [app/services/base_service.py],
    [app/services/mes_operation_service.py]) *)

Module Service.

Abbreviation Key := (string * Z * string)%type.

(** The committed rows of [mes_operations], by primary key. *)
Abbreviation Table := (gmap Key MESOperation).

(** A computation that reads and writes the table and may raise. *)
Definition M (A : Type) : Type := Table -> result A * Table.

Definition ret {A} (a : A) : M A := fun db => (Ok a, db).
Definition raise {A} (e : exn) : M A := fun db => (Raise e, db).
Definition lift {A} (r : result A) : M A := fun db => (r, db).

Definition bind {A B} (m : M A) (k : A -> M B) : M B :=
  fun db =>
    match m db with
    | (Ok a, db') => k a db'
    | (Raise e, db') => (Raise e, db')
    end.

Notation "'let*' x ':=' m 'in' k" := (bind m (fun x => k))
  (at level 10, x name, m at level 200, k at level 200).

(** [try: body except IntegrityError: handler] *)
Definition except_integrity {A} (body : M A) (handler : M A) : M A :=
  fun db =>
    match body db with
    | (Raise IntegrityError, db') => handler db'
    | r => r
    end.

(** *** The session: a unit of work ends in a commit, which writes all of it
    or, on a constraint violation, nothing. *)

(** The [NOT NULL] columns outside the key. *)
Definition row_ok (row : MESOperation) : bool :=
  truthy_obj (timestamp_ms row) && truthy_obj (change_type row).

(** [db.add(row); db.commit()] *)
Definition db_add_commit (row : MESOperation) : M unit :=
  fun db =>
    let key := (order_no row, asset_id row, operation_no row) in
    match db !! key with
    | Some _ => (Raise IntegrityError, db)
    | None =>
        if row_ok row then (Ok tt, <[key := row]> db)
        else (Raise IntegrityError, db)
    end.

(** [db.commit()] after the attributes of the row loaded under [key] were
    set, leaving it as [row]. *)
Definition db_update_commit (key : Key) (row : MESOperation) : M unit :=
  fun db =>
    if row_ok row then (Ok tt, <[key := row]> db)
    else (Raise IntegrityError, db).

(** [db.delete(row); db.commit()] for the row loaded under [key]. *)
Definition db_delete_commit (key : Key) : M unit :=
  fun db => (Ok tt, delete key db).

(** [db.rollback()]: a failed commit wrote nothing, so the table stays. *)
Definition db_rollback : M unit := ret tt.

(** [except IntegrityError: db.rollback(); raise] *)
Definition rollback_and_reraise {A} (body : M A) : M A :=
  except_integrity body (let* _ := db_rollback in raise IntegrityError).

(** [BaseService.transaction]: commit after the body, roll back and re-raise
    on any exception. *)
Definition transaction {A} (body : M A) : M A :=
  fun db =>
    match body db with
    | (Ok a, db') => (Ok a, db')
    | (Raise e, db') => (let* _ := db_rollback in raise e) db'
    end.

(** *** [app/crud/mes_operation.py] *)

Definition get_operation (order_no : string) (asset_id : Z) (operation_no : string)
    : M (option MESOperation) :=
  fun db => (Ok (db !! (order_no, asset_id, operation_no)), db).

(** [if processed and desired and processed > desired: raise ...] *)
Definition check_processed_desired (processed desired : option Z) : result unit :=
  match processed, desired with
  | Some p, Some d =>
      if int_truthy p && int_truthy d && (d <? p)
      then Raise (InvalidQuantityException (ProcessedExceedsDesired p d))
      else Ok tt
  | _, _ => Ok tt
  end.

(** [if scrap and processed and scrap > processed: raise ...] *)
Definition check_scrap_processed (scrap processed : option Z) : result unit :=
  match scrap, processed with
  | Some s, Some p =>
      if int_truthy s && int_truthy p && (p <? s)
      then Raise (InvalidQuantityException (ScrapExceedsProcessed s p))
      else Ok tt
  | _, _ => Ok tt
  end.

Definition create_operation (operation : MESOperationCreate) : M MESOperation :=
  let* _ := lift (check_processed_desired (c_qty_processed operation)
                                          (c_qty_desired operation)) in
  rollback_and_reraise
    (let db_operation := model_of_create operation in
     let* _ := db_add_commit db_operation in
     ret db_operation).

Definition update_operation (order_no : string) (asset_id : Z) (operation_no : string)
    (operation_update : MESOperationUpdate) : M (option MESOperation) :=
  let* db_operation := get_operation order_no asset_id operation_no in
  match db_operation with
  | None => ret None
  | Some db_operation =>
      let new_qty_processed :=
        dict_get_default (u_qty_processed operation_update) (qty_processed db_operation) in
      let qty_desired :=
        dict_get_default (u_qty_desired operation_update) (qty_desired db_operation) in
      let* _ := lift (check_processed_desired new_qty_processed qty_desired) in
      rollback_and_reraise
        (let updated := apply_update operation_update db_operation in
         let* _ := db_update_commit (order_no, asset_id, operation_no) updated in
         ret (Some updated))
  end.

Definition delete_operation (order_no : string) (asset_id : Z) (operation_no : string)
    : M bool :=
  let* db_operation := get_operation order_no asset_id operation_no in
  match db_operation with
  | None => ret false
  | Some _ =>
      rollback_and_reraise
        (let* _ := db_delete_commit (order_no, asset_id, operation_no) in
         ret true)
  end.

(** *** [MESOperationService] *)

Definition VALID_STATE_TRANSITIONS : list (string * list string) :=
  [ ("PLANNED", ["RELEASED"; "CANCELLED"]);
    ("RELEASED", ["IN_PROGRESS"; "CANCELLED"; "ON_HOLD"]);
    ("IN_PROGRESS", ["FINISHED"; "ON_HOLD"; "CANCELLED"]);
    ("ON_HOLD", ["IN_PROGRESS"; "CANCELLED"]);
    ("FINISHED", []);
    ("CANCELLED", []) ].

(** [_handle_integrity_error] *)
Definition _handle_integrity_error {A} (context : string) : M A :=
  raise (MESOperationException ("Database constraint violation during " ++ context)
                               "integrity_violation").

Definition get_by_id (operation_key : Key) : M (option MESOperation) :=
  let '(order_no, asset_id, operation_no) := operation_key in
  get_operation order_no asset_id operation_no.

Definition _validate_operation_data (operation_data : MESOperationCreate) : result unit :=
  rbind (check_processed_desired (c_qty_processed operation_data)
                                 (c_qty_desired operation_data)) (fun _ =>
    match c_planned_start_at operation_data, c_planned_end_at operation_data with
    | Some planned_start, Some planned_end =>
        if planned_end <=? planned_start
        then Raise (InvalidOperationStateException (Some "time_validation")
                      "Planned start time must be before end time")
        else Ok tt
    | _, _ => Ok tt
    end).

(** [a == b] on optional strings *)
Definition opt_str_eqb (a b : option string) : bool :=
  match a, b with
  | Some x, Some y => String.eqb x y
  | None, None => true
  | _, _ => false
  end.

(** [x in xs] for an optional string and a list of strings *)
Definition opt_str_in (x : option string) (xs : list string) : bool :=
  match x with
  | Some s => existsb (String.eqb s) xs
  | None => false
  end.

(** [f"{x}"] of an optional string *)
Definition opt_str_format (x : option string) : string :=
  match x with
  | Some s => s
  | None => "None"
  end.

Definition _validate_state_transition (current_status new_status : option string)
    : result unit :=
  if opt_str_eqb current_status new_status then Ok tt
  else
    let valid_next_states :=
      match current_status with
      | Some c => default [] (dict_get VALID_STATE_TRANSITIONS c)
      | None => []
      end in
    if negb (opt_str_in new_status valid_next_states)
    then Raise (InvalidOperationStateException current_status
                  ("transition to " ++ opt_str_format new_status))
    else Ok tt.

Definition _validate_quantities_update (existing : MESOperation)
    (update_dict : MESOperationUpdate) : result unit :=
  let new_qty_processed :=
    dict_get_default (u_qty_processed update_dict) (qty_processed existing) in
  let new_qty_desired :=
    dict_get_default (u_qty_desired update_dict) (qty_desired existing) in
  let new_qty_scrap :=
    dict_get_default (u_qty_scrap update_dict) (qty_scrap existing) in
  rbind (check_processed_desired new_qty_processed new_qty_desired) (fun _ =>
    check_scrap_processed new_qty_scrap new_qty_processed).

(** [if "status" in update_dict: self._validate_state_transition(...)] *)
Definition validate_status_update (existing : MESOperation)
    (update_dict : MESOperationUpdate) : result unit :=
  match u_status update_dict with
  | Some new_status => _validate_state_transition (status existing) new_status
  | None => Ok tt
  end.

Definition create (operation_data : MESOperationCreate) : M MESOperation :=
  let operation_key :=
    (c_order_no operation_data, c_asset_id operation_data, c_operation_no operation_data) in
  let* existing := get_by_id operation_key in
  if truthy_obj existing then
    raise (DuplicateOperationException (c_order_no operation_data)
             (c_asset_id operation_data) (c_operation_no operation_data))
  else
    let* _ := lift (_validate_operation_data operation_data) in
    except_integrity
      (transaction (create_operation operation_data))
      (_handle_integrity_error "operation creation").

Definition update (operation_key : Key) (update_data : MESOperationUpdate)
    : M (option MESOperation) :=
  let '(order_no, asset_id, operation_no) := operation_key in
  let* existing := get_by_id operation_key in
  match existing with
  | None => raise (OperationNotFoundException order_no asset_id operation_no)
  | Some existing =>
      let* _ := lift (validate_status_update existing update_data) in
      let* _ := lift (_validate_quantities_update existing update_data) in
      except_integrity
        (transaction (update_operation order_no asset_id operation_no update_data))
        (_handle_integrity_error "operation update")
  end.

Definition delete (operation_key : Key) : M bool :=
  let '(order_no, asset_id, operation_no) := operation_key in
  let* existing := get_by_id operation_key in
  match existing with
  | None => ret false
  | Some existing =>
      if opt_str_eqb (status existing) (Some "FINISHED") then
        raise (InvalidOperationStateException (status existing) "delete finished operation")
      else
        except_integrity
          (transaction (delete_operation order_no asset_id operation_no))
          (_handle_integrity_error "operation deletion")
  end.

(** The keyword arguments of the [MESOperationUpdate] built by
    [start_operation]; the two clock readings are [datetime.utcnow()] at
    [actual_start_at] and at [timestamp_ms]. *)
Definition start_update (now_start now_stamp : datetime) : MESOperationUpdate :=
  {| u_reference_url := None; u_status := Some (Some "IN_PROGRESS");
     u_activity_code := None; u_activity_description := None;
     u_workplace_name := None; u_workplace_group := None;
     u_qty_desired := None; u_qty_processed := None; u_qty_scrap := None;
     u_planned_start_at := None; u_planned_end_at := None;
     u_actual_start_at := Some (Some now_start); u_actual_end_at := None;
     u_t_target_processing_min := None; u_t_target_setup_min := None;
     u_t_target_lead_min := None; u_t_actual_processing_min := None;
     u_t_actual_setup_min := None; u_t_actual_lead_min := None;
     u_timestamp_ms := Some (Some now_stamp); u_change_type := Some (Some UPDATE) |}.

Definition start_operation (operation_key : Key) (now_start now_stamp : datetime)
    : M (option MESOperation) :=
  let '(order_no, asset_id, operation_no) := operation_key in
  let* operation := get_by_id operation_key in
  match operation with
  | None => raise (OperationNotFoundException order_no asset_id operation_no)
  | Some operation =>
      if negb (opt_str_in (status operation) ["RELEASED"; "ON_HOLD"]) then
        raise (InvalidOperationStateException (status operation) "start operation")
      else
        let* update_data := lift (new_MESOperationUpdate (start_update now_start now_stamp)) in
        update operation_key update_data
  end.

(** The [update_dict] of [finish_operation]: [qty_processed] is a key only
    when [final_quantity is not None]. *)
Definition finish_update (final_quantity : option Z) (now_end now_stamp : datetime)
    : MESOperationUpdate :=
  {| u_reference_url := None; u_status := Some (Some "FINISHED");
     u_activity_code := None; u_activity_description := None;
     u_workplace_name := None; u_workplace_group := None;
     u_qty_desired := None; u_qty_processed := option_map Some final_quantity;
     u_qty_scrap := None;
     u_planned_start_at := None; u_planned_end_at := None;
     u_actual_start_at := None; u_actual_end_at := Some (Some now_end);
     u_t_target_processing_min := None; u_t_target_setup_min := None;
     u_t_target_lead_min := None; u_t_actual_processing_min := None;
     u_t_actual_setup_min := None; u_t_actual_lead_min := None;
     u_timestamp_ms := Some (Some now_stamp); u_change_type := Some (Some UPDATE) |}.

Definition finish_operation (operation_key : Key) (final_quantity : option Z)
    (now_end now_stamp : datetime) : M (option MESOperation) :=
  let '(order_no, asset_id, operation_no) := operation_key in
  let* operation := get_by_id operation_key in
  match operation with
  | None => raise (OperationNotFoundException order_no asset_id operation_no)
  | Some operation =>
      if negb (opt_str_eqb (status operation) (Some "IN_PROGRESS")) then
        raise (InvalidOperationStateException (status operation) "finish operation")
      else
        let* update_data :=
          lift (new_MESOperationUpdate (finish_update final_quantity now_end now_stamp)) in
        update operation_key update_data
  end.

(** *** Data of the scenarios *)

Definition wo1_key : Key := ("WO-1", 1, "0010").

(** A creation request for [("WO-1", 1, "0010")]. *)
Definition wo1_create (new_status : string) (desired processed : Z) (scrap : option Z)
    : MESOperationCreate :=
  {| c_order_no := "WO-1"; c_asset_id := 1; c_operation_no := "0010";
     c_reference_url := None; c_status := Some new_status;
     c_activity_code := Some "LASER"; c_activity_description := None;
     c_workplace_name := Some "TruLaser 5060 (L76)"; c_workplace_group := None;
     c_qty_desired := Some desired; c_qty_processed := Some processed;
     c_qty_scrap := scrap;
     c_planned_start_at := None; c_planned_end_at := None;
     c_actual_start_at := None; c_actual_end_at := None;
     c_t_target_processing_min := None; c_t_target_setup_min := None;
     c_t_target_lead_min := None; c_t_actual_processing_min := None;
     c_t_actual_setup_min := None; c_t_actual_lead_min := None;
     c_timestamp_ms := 1000; c_change_type := INSERT |}.

(** A table that holds one such operation. *)
Definition wo1_table (current_status : string) (desired processed : Z) : Table :=
  {[ wo1_key := model_of_create (wo1_create current_status desired processed (Some 0)) ]}.

(** Partial updates that set one quantity, or the status, and nothing else. *)
Definition set_qty_processed (q : Z) : MESOperationUpdate :=
  {| u_reference_url := None; u_status := None; u_activity_code := None;
     u_activity_description := None; u_workplace_name := None;
     u_workplace_group := None; u_qty_desired := None;
     u_qty_processed := Some (Some q);
     u_qty_scrap := None; u_planned_start_at := None; u_planned_end_at := None;
     u_actual_start_at := None; u_actual_end_at := None;
     u_t_target_processing_min := None; u_t_target_setup_min := None;
     u_t_target_lead_min := None; u_t_actual_processing_min := None;
     u_t_actual_setup_min := None; u_t_actual_lead_min := None;
     u_timestamp_ms := None; u_change_type := None |}.

Definition set_qty_scrap (q : Z) : MESOperationUpdate :=
  {| u_reference_url := None; u_status := None; u_activity_code := None;
     u_activity_description := None; u_workplace_name := None;
     u_workplace_group := None; u_qty_desired := None; u_qty_processed := None;
     u_qty_scrap := Some (Some q);
     u_planned_start_at := None; u_planned_end_at := None;
     u_actual_start_at := None; u_actual_end_at := None;
     u_t_target_processing_min := None; u_t_target_setup_min := None;
     u_t_target_lead_min := None; u_t_actual_processing_min := None;
     u_t_actual_setup_min := None; u_t_actual_lead_min := None;
     u_timestamp_ms := None; u_change_type := None |}.

Definition set_status (new_status : string) : MESOperationUpdate :=
  {| u_reference_url := None; u_status := Some (Some new_status);
     u_activity_code := None;
     u_activity_description := None; u_workplace_name := None;
     u_workplace_group := None; u_qty_desired := None; u_qty_processed := None;
     u_qty_scrap := None; u_planned_start_at := None; u_planned_end_at := None;
     u_actual_start_at := None; u_actual_end_at := None;
     u_t_target_processing_min := None; u_t_target_setup_min := None;
     u_t_target_lead_min := None; u_t_actual_processing_min := None;
     u_t_actual_setup_min := None; u_t_actual_lead_min := None;
     u_timestamp_ms := None; u_change_type := None |}.

(** The workflow of the specification's scenario, up to the finish: create as
    [PLANNED], release, start, finish with a final quantity of 100. *)
Definition wo1_workflow : M (option MESOperation * option MESOperation) :=
  let* _ := create (wo1_create "PLANNED" 100 0 (Some 0)) in
  let* _ := update wo1_key (set_status "RELEASED") in
  let* started := start_operation wo1_key 2000 2001 in
  let* finished := finish_operation wo1_key (Some 100) 3000 3001 in
  ret (started, finished).

(** A creation request for [("WO-1", 1, "0010")] with planned times. *)
Definition wo1_create_planned (planned_start planned_end : datetime) : MESOperationCreate :=
  {| c_order_no := "WO-1"; c_asset_id := 1; c_operation_no := "0010";
     c_reference_url := None; c_status := Some "PLANNED";
     c_activity_code := Some "LASER"; c_activity_description := None;
     c_workplace_name := Some "TruLaser 5060 (L76)"; c_workplace_group := None;
     c_qty_desired := Some 100; c_qty_processed := Some 0; c_qty_scrap := Some 0;
     c_planned_start_at := Some planned_start; c_planned_end_at := Some planned_end;
     c_actual_start_at := None; c_actual_end_at := None;
     c_t_target_processing_min := None; c_t_target_setup_min := None;
     c_t_target_lead_min := None; c_t_actual_processing_min := None;
     c_t_actual_setup_min := None; c_t_actual_lead_min := None;
     c_timestamp_ms := 1000; c_change_type := INSERT |}.

(** [MESOperationUpdate()] with no field set. *)
Definition no_fields : MESOperationUpdate :=
  {| u_reference_url := None; u_status := None; u_activity_code := None;
     u_activity_description := None; u_workplace_name := None;
     u_workplace_group := None; u_qty_desired := None; u_qty_processed := None;
     u_qty_scrap := None; u_planned_start_at := None; u_planned_end_at := None;
     u_actual_start_at := None; u_actual_end_at := None;
     u_t_target_processing_min := None; u_t_target_setup_min := None;
     u_t_target_lead_min := None; u_t_actual_processing_min := None;
     u_t_actual_setup_min := None; u_t_actual_lead_min := None;
     u_timestamp_ms := None; u_change_type := None |}.

(** [calculate_efficiency]: [None] when a time is absent or zero, else the
    ratio of the floats, capped at [2.0]. *)
Definition calculate_efficiency (operation : MESOperation)
    : result (option ManufacturingRules.float) :=
  match t_actual_processing_min operation, t_target_processing_min operation with
  | Some actual, Some target =>
      if negb (decimal_truthy actual) || negb (decimal_truthy target) then Ok None
      else if Qnum target =? 0 then Ok None
      else
        rbind (ManufacturingRules.py_truediv
                 (ManufacturingRules.float_of_decimal target)
                 (ManufacturingRules.float_of_decimal actual)) (fun efficiency =>
          Ok (Some (ManufacturingRules.py_min efficiency (ManufacturingRules.float_lit 2))))
  | _, _ => Ok None
  end.

End Service.

(** ** The state-machine validation of the enhanced service
    ([app/services/mes_operation_service_enhanced.py]) *)

Module ServiceEnhanced.

(** [repr] of a list of status names, as an f-string renders it. *)
Definition repr_names (names : list string) : string :=
  "[" ++ String.concat ", " (map (fun name => "'" ++ name ++ "'") names) ++ "]".

(** [_validate_state_transition]: asks the state machine, passing no
    context. *)
Definition _validate_state_transition (current_status new_status : string) : result unit :=
  rbind (StateMachine.can_transition current_status new_status None) (fun allowed =>
    if negb allowed then
      let valid_transitions := StateMachine.get_valid_transitions current_status in
      Raise (InvalidOperationStateException (Some current_status)
               ("transition to " ++ new_status ++ ". Valid transitions: "
                ++ repr_names valid_transitions))
    else Ok tt).

End ServiceEnhanced.

(** * Properties *)

(** ** The state machine *)

Module StateMachineFacts.
Import StateMachine.

Lemma OperationStatus_of_value (s : OperationStatus) :
  OperationStatus_of (value s) = Some s.
Proof. destruct s; reflexivity. Qed.

Lemma OperationStatus_of_Some (name : string) (s : OperationStatus) :
  OperationStatus_of name = Some s -> value s = name.
Proof.
  unfold OperationStatus_of. intros Hfind.
  apply find_some in Hfind as [_ Heq].
  now apply String.eqb_eq in Heq.
Qed.

Lemma status_eqb_eq (a b : OperationStatus) : status_eqb a b = true <-> a = b.
Proof. destruct a, b; simpl; split; intros H; try reflexivity; discriminate H. Qed.

Lemma status_eqb_refl (a : OperationStatus) : status_eqb a a = true.
Proof. now apply status_eqb_eq. Qed.

(** The table has no edge from a state to itself. *)
Lemma find_transition_self (s : OperationStatus) : find_transition s s = None.
Proof. destruct s; reflexivity. Qed.

(** A terminal state has no edge at all. *)
Lemma find_transition_terminal (s t : OperationStatus) :
  In s _terminal_states -> find_transition s t = None.
Proof.
  simpl. intros [<- | [<- | []]]; reflexivity.
Qed.

Lemma check_conditions_loop_cons (condition : string) (rest : list string)
    (context : Context) :
  check_conditions_loop (condition :: rest) context =
  rbind (condition_result condition context) (fun met =>
    if met then check_conditions_loop rest context else Ok false).
Proof.
  unfold condition_result. cbn [check_conditions_loop].
  destruct (dict_get condition_checkers condition) as [checker|]; [|reflexivity].
  destruct (checker context) as [v|e]; [|reflexivity].
  cbn [rbind]. now destruct (py_truthy v).
Qed.

(** The loop answers [False] at the first precondition that is not met,
    provided the ones before it were met. *)
Lemma check_conditions_loop_unmet (before after : list string) (condition : string)
    (context : Context) :
  Forall (fun c => condition_result c context = Ok true) before ->
  condition_result condition context = Ok false ->
  check_conditions_loop (before ++ condition :: after)%list context = Ok false.
Proof.
  intros Hbefore Hunmet.
  induction Hbefore as [|c before Hc _ IH]; simpl app.
  - rewrite check_conditions_loop_cons, Hunmet. reflexivity.
  - rewrite check_conditions_loop_cons, Hc. exact IH.
Qed.

(** An edge with an unmet precondition is refused by [can_transition]. *)
Lemma can_transition_unmet_condition (from_status to_status : OperationStatus)
    (edge : StateTransition) (before after : list string) (condition : string)
    (context : option Context) :
  from_status <> to_status ->
  find_transition from_status to_status = Some edge ->
  conditions edge = (before ++ condition :: after)%list ->
  Forall (fun c => condition_result c (context_or_empty context) = Ok true) before ->
  condition_result condition (context_or_empty context) = Ok false ->
  can_transition (value from_status) (value to_status) context = Ok false.
Proof.
  intros Hne Hedge Hconds Hbefore Hunmet.
  unfold can_transition. rewrite !OperationStatus_of_value.
  destruct (status_eqb from_status to_status) eqn:Heq.
  - apply status_eqb_eq in Heq. contradiction.
  - rewrite Hedge. unfold _check_conditions. rewrite Hconds.
    now apply check_conditions_loop_unmet.
Qed.

(** C3: for each of the six statuses and every context,
    [can_transition(s, s, context)] answers true: a same-state call is a
    permitted no-op. *)
Theorem can_transition_same_state (s : OperationStatus) (context : option Context) :
  can_transition (value s) (value s) context = Ok true.
Proof.
  unfold can_transition.
  rewrite OperationStatus_of_value, status_eqb_refl. reflexivity.
Qed.

(** C2, as stated, fails on the same-state pair: [can_transition] answers
    true from [FINISHED] to [FINISHED]. *)
Lemma can_transition_finished_to_finished :
  can_transition "FINISHED" "FINISHED" None = Ok true.
Proof. reflexivity. Qed.

(** C2 (amended): from a terminal state ([FINISHED] or [CANCELLED]),
    [can_transition] answers false for every target other than the state
    itself, whatever the context, and the state has no outgoing transition. *)
Theorem terminal_state_no_outgoing (s : OperationStatus) (to_state : string)
    (context : option Context) :
  In s _terminal_states ->
  to_state <> value s ->
  can_transition (value s) to_state context = Ok false
  /\ get_valid_transitions (value s) = [].
Proof.
  intros Hterm Hne. split.
  - unfold can_transition. rewrite OperationStatus_of_value.
    destruct (OperationStatus_of to_state) as [to_status|] eqn:Hto; [|reflexivity].
    destruct (status_eqb s to_status) eqn:Heq.
    + apply status_eqb_eq in Heq. subst to_status.
      apply OperationStatus_of_Some in Hto. congruence.
    + now rewrite find_transition_terminal.
  - unfold get_valid_transitions. rewrite OperationStatus_of_value.
    simpl in Hterm. destruct Hterm as [<- | [<- | []]]; reflexivity.
Qed.

Lemma terminal_state_no_outgoing_witness :
  can_transition (value FINISHED) "PLANNED" None = Ok false
  /\ get_valid_transitions (value FINISHED) = [].
Proof.
  apply (terminal_state_no_outgoing FINISHED "PLANNED" None).
  - simpl. left. reflexivity.
  - simpl. discriminate.
Defined.

(** C4: whenever [can_transition(from, to, context)] answers false, in
    particular for distinct states with an unmet precondition,
    [transition(from, to, context, actor)] raises the invalid-transition
    [ValueError] and returns no transition record. *)
Theorem transition_refused_raises (from_state to_state : string)
    (context : option Context) (user_id : option string) (utcnow : Z) :
  can_transition from_state to_state context = Ok false ->
  transition from_state to_state context user_id utcnow =
  Raise (ValueError ("Invalid transition: " ++ from_state ++ " -> " ++ to_state)).
Proof.
  intros Hrefused. unfold transition. rewrite Hrefused. reflexivity.
Qed.

(** The witness cancels a planned operation without a [user_role]: the
    precondition [authorized_cancellation] is unmet. *)
Lemma transition_refused_raises_witness :
  can_transition "PLANNED" "CANCELLED" None = Ok false
  /\ transition "PLANNED" "CANCELLED" None (Some "operator-7") 0 =
     Raise (ValueError "Invalid transition: PLANNED -> CANCELLED").
Proof.
  split.
  - reflexivity.
  - apply (transition_refused_raises "PLANNED" "CANCELLED" None (Some "operator-7") 0).
    reflexivity.
Defined.

(** C10: for each of the six statuses and every context,
    [transition(s, s, context, actor)] raises (no transition record exists
    for a same-state pair) although [can_transition(s, s, context)] answers
    true. *)
Theorem transition_same_state_raises (s : OperationStatus) (context : option Context)
    (user_id : option string) (utcnow : Z) :
  can_transition (value s) (value s) context = Ok true
  /\ transition (value s) (value s) context user_id utcnow =
     Raise (ValueError ("Transition not found: " ++ value s ++ " -> " ++ value s)).
Proof.
  assert (Hcan : can_transition (value s) (value s) context = Ok true).
  { unfold can_transition.
    rewrite OperationStatus_of_value, status_eqb_refl. reflexivity. }
  split; [exact Hcan|].
  unfold transition. rewrite Hcan. simpl.
  rewrite OperationStatus_of_value, find_transition_self. reflexivity.
Qed.

(** *** Further properties of the state machine *)

(** Running the effects of an edge records every one of them, in order. *)
Lemma execute_effects_loop_all (effs : list string) (context : Context)
    (user_id : option string) :
  execute_effects_loop effs context user_id = effs.
Proof.
  induction effs as [|effect rest IH]; [reflexivity|].
  cbn [execute_effects_loop]. unfold _execute_single_effect.
  destruct (existsb (String.eqb effect) effect_handlers); now rewrite IH.
Qed.

Lemma find_transition_Some (from_status to_status : OperationStatus)
    (edge : StateTransition) :
  find_transition from_status to_status = Some edge ->
  In edge (_define_transitions from_status) /\ to_state edge = to_status.
Proof.
  unfold find_transition. intros Hfind.
  apply find_some in Hfind as [Hin Heq].
  split; [exact Hin|]. now apply status_eqb_eq.
Qed.

(** X1: a status name that is no member of the enum is answered, never
    raised on: [can_transition] is false, [transition] raises the
    invalid-transition [ValueError], and an unknown current state has no
    valid transitions and is not terminal. *)
Theorem unknown_status_refused (from_state to_state : string)
    (context : option Context) (user_id : option string) (utcnow : Z) :
  OperationStatus_of from_state = None \/ OperationStatus_of to_state = None ->
  can_transition from_state to_state context = Ok false
  /\ transition from_state to_state context user_id utcnow =
     Raise (ValueError ("Invalid transition: " ++ from_state ++ " -> " ++ to_state))
  /\ (OperationStatus_of from_state = None ->
      get_valid_transitions from_state = [] /\ is_terminal_state from_state = false).
Proof.
  intros Hunknown.
  assert (Hcan : can_transition from_state to_state context = Ok false).
  { unfold can_transition.
    destruct Hunknown as [-> | ->]; [reflexivity|].
    now destruct (OperationStatus_of from_state). }
  split; [exact Hcan|]. split.
  - unfold transition. rewrite Hcan. reflexivity.
  - intros Hfrom. unfold get_valid_transitions, is_terminal_state.
    rewrite Hfrom. split; reflexivity.
Qed.

Lemma unknown_status_refused_witness :
  can_transition "PLANNED" "DONE" None = Ok false
  /\ transition "PLANNED" "DONE" None None 0 =
     Raise (ValueError "Invalid transition: PLANNED -> DONE").
Proof.
  destruct (unknown_status_refused "PLANNED" "DONE" None None 0 (or_intror eq_refl))
    as (Hcan & Hrun & _).
  split; [exact Hcan|exact Hrun].
Defined.

(** Every precondition but [quantity_complete] answers a boolean on every
    context. *)
Lemma condition_result_total (condition : string) (context : Context) :
  condition <> "quantity_complete" ->
  exists met, condition_result condition context = Ok met.
Proof.
  intros Hne. unfold condition_result, condition_checkers.
  cbn [dict_get].
  repeat match goal with
         | |- context [String.eqb ?name condition] =>
             let Heq := fresh "Heq" in
             destruct (String.eqb name condition) eqn:Heq;
             [try (apply String.eqb_eq in Heq; congruence);
              cbn [rbind]; eexists; reflexivity|]
         end.
  eexists; reflexivity.
Qed.

Lemma check_conditions_loop_total (conds : list string) (context : Context) :
  ~ In "quantity_complete" conds ->
  exists met, check_conditions_loop conds context = Ok met.
Proof.
  induction conds as [|condition rest IH]; intros Hnot.
  - exists true. reflexivity.
  - rewrite check_conditions_loop_cons.
    destruct (condition_result_total condition context) as [met Hmet].
    { intros ->. apply Hnot. now left. }
    rewrite Hmet. cbn [rbind]. destruct met.
    + apply IH. intros Hin. apply Hnot. now right.
    + exists false. reflexivity.
Qed.

(** X2: [can_transition] raises on no pair of names other than
    [IN_PROGRESS] to [FINISHED] (whose [quantity_complete] compares two
    context values): everywhere else it answers a boolean, whatever the
    context holds. *)
Theorem can_transition_answers (from_state to_state : string) (context : option Context) :
  ~ (from_state = "IN_PROGRESS" /\ to_state = "FINISHED") ->
  exists allowed, can_transition from_state to_state context = Ok allowed.
Proof.
  intros Hpair. unfold can_transition.
  destruct (OperationStatus_of from_state) as [from_status|] eqn:Hfrom;
    [|exists false; reflexivity].
  destruct (OperationStatus_of to_state) as [to_status|] eqn:Hto;
    [|exists false; reflexivity].
  apply OperationStatus_of_Some in Hfrom, Hto.
  destruct (status_eqb from_status to_status); [exists true; reflexivity|].
  destruct (find_transition from_status to_status) as [edge|] eqn:Hedge;
    [|exists false; reflexivity].
  unfold _check_conditions. apply check_conditions_loop_total.
  destruct from_status, to_status; try discriminate Hedge;
    injection Hedge as <-; cbn [conditions In];
    try (intros [H|[H|[H|[]]]]; discriminate H);
    try (intros [H|[H|[]]]; discriminate H);
    try (intros [H|[]]; discriminate H).
  exfalso. apply Hpair. subst. split; reflexivity.
Qed.

Lemma can_transition_answers_witness :
  exists allowed,
    can_transition "RELEASED" "IN_PROGRESS"
      (Some {[ "setup_status" := PyInt 3 ]}) = Ok allowed.
Proof.
  apply (can_transition_answers "RELEASED" "IN_PROGRESS"
           (Some {[ "setup_status" := PyInt 3 ]})).
  intros [Hfrom _]. discriminate Hfrom.
Defined.

(** X3: [transition] returns a record exactly for two distinct statuses that
    [can_transition] allows; the record echoes the names, the actor and the
    clock, lists every effect of the edge in the order of the table, and
    carries the edge's confirmation flag. *)
Theorem transition_returns (from_state to_state : string) (context : option Context)
    (user_id : option string) (utcnow : Z) :
  (forall record,
      transition from_state to_state context user_id utcnow = Ok record ->
      can_transition from_state to_state context = Ok true
      /\ from_state <> to_state
      /\ exists from_status edge,
           OperationStatus_of from_state = Some from_status
           /\ In edge (_define_transitions from_status)
           /\ value (StateMachine.to_state edge) = to_state
           /\ record = {| r_from_state := from_state;
                          r_to_state := to_state;
                          r_timestamp := utcnow;
                          r_user_id := user_id;
                          r_effects_executed := effects edge;
                          r_requires_confirmation := requires_confirmation edge |})
  /\ (can_transition from_state to_state context = Ok true ->
      from_state <> to_state ->
      exists record, transition from_state to_state context user_id utcnow = Ok record).
Proof.
  split.
  - intros record Hrun. unfold transition in Hrun.
    destruct (can_transition from_state to_state context) as [[|]|] eqn:Hcan;
      cbn [rbind negb] in Hrun; try discriminate Hrun.
    split; [reflexivity|].
    destruct (OperationStatus_of from_state) as [from_status|] eqn:Hfrom;
      [|discriminate Hrun].
    destruct (OperationStatus_of to_state) as [to_status|] eqn:Hto;
      [|discriminate Hrun].
    destruct (find_transition from_status to_status) as [edge|] eqn:Hedge;
      [|discriminate Hrun].
    injection Hrun as <-.
    apply find_transition_Some in Hedge as Hedge'. destruct Hedge' as [Hin Htarget].
    apply OperationStatus_of_Some in Hfrom as Hfrom', Hto as Hto'.
    split.
    + intros Hnames. subst to_state.
      assert (Hsame : to_status = from_status) by congruence.
      rewrite Hsame, find_transition_self in Hedge. discriminate Hedge.
    + exists from_status, edge. repeat split; try assumption.
      * now rewrite Htarget.
      * unfold _execute_effects. now rewrite execute_effects_loop_all.
  - intros Hcan Hne. unfold transition. rewrite Hcan. cbn [rbind negb].
    unfold can_transition in Hcan.
    destruct (OperationStatus_of from_state) as [from_status|] eqn:Hfrom;
      [|discriminate Hcan].
    destruct (OperationStatus_of to_state) as [to_status|] eqn:Hto;
      [|discriminate Hcan].
    destruct (status_eqb from_status to_status) eqn:Heq.
    + apply status_eqb_eq in Heq. subst to_status.
      apply OperationStatus_of_Some in Hfrom, Hto. congruence.
    + destruct (find_transition from_status to_status) as [edge|];
        [|discriminate Hcan].
      eexists. reflexivity.
Qed.

Lemma transition_returns_witness :
  exists record,
    transition "PLANNED" "RELEASED" None (Some "operator-7") 42 = Ok record.
Proof.
  apply (proj2 (transition_returns "PLANNED" "RELEASED" None (Some "operator-7") 42)).
  - reflexivity.
  - discriminate.
Defined.

(** The role a context grants: [authorized_cancellation] holds exactly for
    the strings [supervisor] and [manager]. *)
Lemma authorized_cancellation_role (context : Context) :
  condition_result "authorized_cancellation" context = Ok true ->
  context !! "user_role" = Some (PyStr "supervisor")
  \/ context !! "user_role" = Some (PyStr "manager").
Proof.
  change (condition_result "authorized_cancellation" context)
    with (Ok (py_in (ctx_get context "user_role" PyNone)
                    [PyStr "supervisor"; PyStr "manager"])).
  unfold ctx_get. intros Hrole. injection Hrole as Hrole.
  destruct (context !! "user_role") as [[| b | z | role]|];
    try discriminate Hrole.
  cbn [py_in existsb py_eq orb] in Hrole.
  destruct (String.eqb role "supervisor") eqn:Hsupervisor.
  { apply String.eqb_eq in Hsupervisor. subst role. now left. }
  destruct (String.eqb role "manager") eqn:Hmanager.
  { apply String.eqb_eq in Hmanager. subst role. now right. }
  discriminate Hrole.
Qed.

(** X4: a cancellation goes through only for a supervisor or a manager and
    always asks for confirmation: when [transition] into [CANCELLED]
    returns a record, the context names one of the two roles under
    [user_role] and the record has [requires_confirmation] set. *)
Theorem cancellation_needs_authority (from_state : string) (context : option Context)
    (user_id : option string) (utcnow : Z) (record : TransitionResult) :
  transition from_state "CANCELLED" context user_id utcnow = Ok record ->
  r_requires_confirmation record = true
  /\ (context_or_empty context !! "user_role" = Some (PyStr "supervisor")
      \/ context_or_empty context !! "user_role" = Some (PyStr "manager")).
Proof.
  intros Hrun. unfold transition in Hrun.
  destruct (can_transition from_state "CANCELLED" context) as [[|]|] eqn:Hcan;
    cbn [rbind negb] in Hrun; try discriminate Hrun.
  unfold can_transition in Hcan.
  destruct (OperationStatus_of from_state) as [from_status|]; [|discriminate Hcan].
  change (OperationStatus_of "CANCELLED") with (Some CANCELLED) in *.
  cbv iota in Hcan, Hrun.
  destruct from_status; cbn [status_eqb find_transition _define_transitions find
                             StateMachine.to_state] in Hcan, Hrun;
    try discriminate Hrun;
    injection Hrun as <-; (split; [reflexivity|]);
    unfold _check_conditions in Hcan; cbn [conditions] in Hcan;
    rewrite check_conditions_loop_cons in Hcan;
    destruct (condition_result "authorized_cancellation" (context_or_empty context))
      as [[|]|] eqn:Hrole; cbn [rbind] in Hcan; try discriminate Hcan;
    now apply authorized_cancellation_role.
Qed.

Lemma cancellation_needs_authority_witness :
  let context := Some {[ "user_role" := PyStr "manager" ]} in
  exists record,
    transition "PLANNED" "CANCELLED" context (Some "manager-1") 7 = Ok record
    /\ r_requires_confirmation record = true.
Proof.
  intros context.
  eexists. split; [vm_compute; reflexivity|].
  apply (cancellation_needs_authority "PLANNED" context (Some "manager-1") 7).
  vm_compute. reflexivity.
Defined.

(** X5: whatever [can_transition] allows between two different names is
    listed by [get_valid_transitions], and that list never holds the
    current state itself. *)
Theorem allowed_is_listed (from_state to_state : string) (context : option Context) :
  (can_transition from_state to_state context = Ok true ->
   from_state = to_state \/ In to_state (get_valid_transitions from_state))
  /\ ~ In from_state (get_valid_transitions from_state).
Proof.
  split.
  - unfold can_transition, get_valid_transitions. intros Hcan.
    destruct (OperationStatus_of from_state) as [from_status|] eqn:Hfrom;
      [|discriminate Hcan].
    destruct (OperationStatus_of to_state) as [to_status|] eqn:Hto;
      [|discriminate Hcan].
    apply OperationStatus_of_Some in Hfrom, Hto.
    destruct (status_eqb from_status to_status) eqn:Heq.
    + left. apply status_eqb_eq in Heq. congruence.
    + right.
      destruct (find_transition from_status to_status) as [edge|] eqn:Hedge;
        [|discriminate Hcan].
      apply find_transition_Some in Hedge as [Hin Htarget].
      apply in_map_iff. exists edge. split; [|exact Hin]. congruence.
  - unfold get_valid_transitions.
    destruct (OperationStatus_of from_state) as [from_status|] eqn:Hfrom;
      [|intros []].
    apply OperationStatus_of_Some in Hfrom. subst from_state.
    destruct from_status; cbn; intuition discriminate.
Qed.

Lemma allowed_is_listed_witness :
  In "RELEASED" (get_valid_transitions "PLANNED").
Proof.
  destruct (proj1 (allowed_is_listed "PLANNED" "RELEASED" None) eq_refl)
    as [Hsame | Hlisted].
  - discriminate Hsame.
  - exact Hlisted.
Defined.

(** X6: [is_terminal_state] holds of the names [FINISHED] and [CANCELLED]
    and of no other string; among the six statuses, the terminal ones are
    those without a valid transition. *)
Theorem is_terminal_state_iff (state : string) :
  (is_terminal_state state = true <-> state = "FINISHED" \/ state = "CANCELLED")
  /\ (forall s : OperationStatus,
        is_terminal_state (value s) = true <-> get_valid_transitions (value s) = []).
Proof.
  split.
  - unfold is_terminal_state. split.
    + destruct (OperationStatus_of state) as [s|] eqn:Hs; [|discriminate].
      apply OperationStatus_of_Some in Hs. subst state.
      destruct s; cbn; intros H; try discriminate H; auto.
    + intros [-> | ->]; reflexivity.
  - intros s. destruct s; cbn; split; intros H; try reflexivity; discriminate H.
Qed.

(** X7: the transition table is well formed.  Every edge is filed under its
    own source state and leads elsewhere; each of its preconditions has a
    checker and each of its effects a handler, so none is skipped; it asks
    for confirmation exactly when it cancels; and no state has two edges to
    one target. *)
Theorem transition_table_well_formed (s : OperationStatus) (edge : StateTransition) :
  In edge (_define_transitions s) ->
  from_state edge = s
  /\ StateMachine.to_state edge <> s
  /\ Forall (fun condition => is_Some (dict_get condition_checkers condition))
            (conditions edge)
  /\ Forall (fun effect => In effect effect_handlers) (effects edge)
  /\ (requires_confirmation edge = true <-> StateMachine.to_state edge = CANCELLED)
  /\ find_transition s (StateMachine.to_state edge) = Some edge.
Proof.
  intros Hin.
  destruct s; cbn [_define_transitions In] in Hin;
    repeat match type of Hin with
           | _ \/ _ => destruct Hin as [<- | Hin]
           | False => destruct Hin
           end;
    (split; [reflexivity|]);
    (split; [discriminate|]);
    (split; [repeat constructor; vm_compute; eauto|]);
    (split; [repeat constructor; vm_compute; tauto|]);
    (split; [cbn; split; intros H; first [reflexivity | discriminate H]|]);
    reflexivity.
Qed.

Lemma transition_table_well_formed_witness :
  let edge := {| from_state := ON_HOLD; to_state := IN_PROGRESS;
                 conditions := ["hold_reason_resolved"; "resources_available"];
                 effects := ["resume_time_tracking"; "update_machine_status"];
                 requires_confirmation := false |} in
  from_state edge = ON_HOLD
  /\ find_transition ON_HOLD IN_PROGRESS = Some edge.
Proof.
  intros edge.
  destruct (transition_table_well_formed ON_HOLD edge) as (Hfrom & _ & _ & _ & _ & Hfind).
  - cbn. left. reflexivity.
  - split; [exact Hfrom|exact Hfind].
Defined.

End StateMachineFacts.

(** ** Derived metrics *)

Module ManufacturingRulesFacts.
Import ManufacturingRules.

(** The conversion on known values: [0.1] is [0x1.999999999999ap-4], the
    smallest subnormal is [2^-1074], half of it rounds to zero (the tie goes
    to the even mantissa) and anything above half rounds up to it, and
    [10^400] is beyond the largest float. *)
Example float_of_ratio_values :
  float_of_ratio 1 10 = S754_finite false 7205759403792794 (-56)
  /\ float_of_ratio 1 (2 ^ 1074) = S754_finite false 1 (-1074)
  /\ float_of_ratio 1 (2 ^ 1075) = S754_zero false
  /\ float_of_ratio 3 (2 ^ 1076) = S754_finite false 1 (-1074)
  /\ float_of_ratio (10 ^ 400) 1 = S754_infinity false
  /\ float_of_int (10 ^ 400) = Raise OverflowError.
Proof. repeat split; vm_compute; reflexivity. Qed.

Lemma decimal_truthy_zero (d : Decimal) : (d == 0)%Q -> decimal_truthy d = false.
Proof.
  unfold Qeq, decimal_truthy. simpl. intros Hd.
  replace (Qnum d) with 0 by lia. reflexivity.
Qed.

Lemma int_truthy_zero : int_truthy 0 = false.
Proof. reflexivity. Qed.

(** Peels the successful steps off a chain of [rbind]s that returned. *)
Ltac returned H :=
  repeat match type of H with
         | rbind ?r _ = Ok _ =>
             let v := fresh "v" in
             destruct r as [v|]; cbn [rbind] in H; [|discriminate H]
         end;
  injection H as <-.

(** Each step of [calculate_operation_metrics], when it returns, touches
    only its own keys, and leaves the map as it was when an operand of its
    ratio is absent or zero. *)
Lemma efficiency_metric_returned (operation : MESOperation) (metrics metrics' : Metrics) :
  efficiency_metric operation metrics = Ok metrics' ->
  (forall key, key <> "processing_efficiency" -> metrics' !! key = metrics !! key)
  /\ (absent_or_zero_decimal (t_target_processing_min operation)
      \/ absent_or_zero_decimal (t_actual_processing_min operation) ->
      metrics' = metrics).
Proof.
  unfold efficiency_metric, absent_or_zero_decimal. intros Hrun.
  destruct (t_target_processing_min operation) as [target|];
    [destruct (t_actual_processing_min operation) as [actual|]|];
    try (injection Hrun as <-; split; reflexivity).
  destruct (decimal_truthy target && decimal_truthy actual) eqn:Hguard;
    [|injection Hrun as <-; split; reflexivity].
  destruct (decimal_pos actual); [|injection Hrun as <-; split; reflexivity].
  apply andb_prop in Hguard as [Htarget Hactual].
  returned Hrun. split.
  - intros key Hkey. now rewrite lookup_insert_ne.
  - intros [Hz | Hz].
    + rewrite (decimal_truthy_zero target) in Htarget by now apply Hz.
      discriminate Htarget.
    + rewrite (decimal_truthy_zero actual) in Hactual by now apply Hz.
      discriminate Hactual.
Qed.

Lemma throughput_metric_returned (operation : MESOperation) (metrics metrics' : Metrics) :
  throughput_metric operation metrics = Ok metrics' ->
  (forall key, key <> "throughput_per_hour" -> metrics' !! key = metrics !! key)
  /\ (absent_or_zero_int (qty_processed operation)
      \/ absent_or_zero_decimal (t_actual_processing_min operation) ->
      metrics' = metrics).
Proof.
  unfold throughput_metric, absent_or_zero_int, absent_or_zero_decimal. intros Hrun.
  destruct (qty_processed operation) as [processed|];
    [destruct (t_actual_processing_min operation) as [actual|]|];
    try (injection Hrun as <-; split; reflexivity).
  destruct (int_truthy processed && decimal_truthy actual) eqn:Hguard;
    [|injection Hrun as <-; split; reflexivity].
  destruct (decimal_pos actual); [|injection Hrun as <-; split; reflexivity].
  apply andb_prop in Hguard as [Hprocessed Hactual].
  returned Hrun. split.
  - intros key Hkey. now rewrite lookup_insert_ne.
  - intros [Hz | Hz].
    + rewrite (Hz processed eq_refl), int_truthy_zero in Hprocessed.
      discriminate Hprocessed.
    + rewrite (decimal_truthy_zero actual) in Hactual by now apply Hz.
      discriminate Hactual.
Qed.

Lemma quality_metrics_returned (operation : MESOperation) (metrics metrics' : Metrics) :
  quality_metrics operation metrics = Ok metrics' ->
  (forall key, key <> "scrap_rate" -> key <> "quality_rate" ->
     metrics' !! key = metrics !! key)
  /\ (absent_or_zero_int (qty_processed operation)
      \/ absent_or_zero_int (qty_scrap operation) ->
      metrics' = metrics).
Proof.
  unfold quality_metrics, absent_or_zero_int. intros Hrun.
  destruct (qty_processed operation) as [processed|];
    [destruct (qty_scrap operation) as [scrap|]|];
    try (injection Hrun as <-; split; reflexivity).
  destruct (int_truthy processed && int_truthy scrap) eqn:Hguard;
    [|injection Hrun as <-; split; reflexivity].
  destruct (0 <? processed); [|injection Hrun as <-; split; reflexivity].
  apply andb_prop in Hguard as [Hprocessed Hscrap].
  returned Hrun. split.
  - intros key Hscrap_key Hquality_key. now rewrite !lookup_insert_ne.
  - intros [Hz | Hz].
    + rewrite (Hz processed eq_refl), int_truthy_zero in Hprocessed.
      discriminate Hprocessed.
    + rewrite (Hz scrap eq_refl), int_truthy_zero in Hscrap.
      discriminate Hscrap.
Qed.

Lemma variance_metric_returned (name : string) (planned actual : option datetime)
    (metrics metrics' : Metrics) :
  variance_metric name planned actual metrics = Ok metrics' ->
  forall key, key <> name -> metrics' !! key = metrics !! key.
Proof.
  unfold variance_metric. intros Hrun.
  destruct planned as [p|]; [destruct actual as [a|]|];
    try (injection Hrun as <-; reflexivity).
  returned Hrun. intros key Hkey. now rewrite lookup_insert_ne.
Qed.

Lemma completion_metric_returned (operation : MESOperation) (metrics metrics' : Metrics) :
  completion_metric operation metrics = Ok metrics' ->
  (forall key, key <> "completion_percentage" -> metrics' !! key = metrics !! key)
  /\ (absent_or_zero_int (qty_desired operation)
      \/ absent_or_zero_int (qty_processed operation) ->
      metrics' = metrics).
Proof.
  unfold completion_metric, absent_or_zero_int. intros Hrun.
  destruct (qty_desired operation) as [desired|];
    [destruct (qty_processed operation) as [processed|]|];
    try (injection Hrun as <-; split; reflexivity).
  destruct (int_truthy desired && int_truthy processed) eqn:Hguard;
    [|injection Hrun as <-; split; reflexivity].
  apply andb_prop in Hguard as [Hdesired Hprocessed].
  returned Hrun. split.
  - intros key Hkey. now rewrite lookup_insert_ne.
  - intros [Hz | Hz].
    + rewrite (Hz desired eq_refl), int_truthy_zero in Hdesired.
      discriminate Hdesired.
    + rewrite (Hz processed eq_refl), int_truthy_zero in Hprocessed.
      discriminate Hprocessed.
Qed.

(** The part of C9 that the guards do secure: in a map that
    [calculate_operation_metrics] returns, a ratio metric is left out
    whenever one of its operands is absent or zero as stored. *)
Lemma calculate_operation_metrics_omits (operation : MESOperation) (metrics : Metrics) :
  calculate_operation_metrics operation = Ok metrics ->
  (absent_or_zero_decimal (t_actual_processing_min operation) ->
   metrics !! "processing_efficiency" = None
   /\ metrics !! "throughput_per_hour" = None)
  /\ (absent_or_zero_decimal (t_target_processing_min operation) ->
      metrics !! "processing_efficiency" = None)
  /\ (absent_or_zero_int (qty_processed operation) ->
      metrics !! "throughput_per_hour" = None
      /\ metrics !! "scrap_rate" = None
      /\ metrics !! "quality_rate" = None
      /\ metrics !! "completion_percentage" = None)
  /\ (absent_or_zero_int (qty_scrap operation) ->
      metrics !! "scrap_rate" = None /\ metrics !! "quality_rate" = None)
  /\ (absent_or_zero_int (qty_desired operation) ->
      metrics !! "completion_percentage" = None).
Proof.
  unfold calculate_operation_metrics. intros Hrun.
  destruct (efficiency_metric operation ∅) as [m1|] eqn:H1;
    cbn [rbind] in Hrun; [|discriminate Hrun].
  destruct (throughput_metric operation m1) as [m2|] eqn:H2;
    cbn [rbind] in Hrun; [|discriminate Hrun].
  destruct (quality_metrics operation m2) as [m3|] eqn:H3;
    cbn [rbind] in Hrun; [|discriminate Hrun].
  destruct (variance_metric _ _ _ m3) as [m4|] eqn:H4;
    cbn [rbind] in Hrun; [|discriminate Hrun].
  destruct (variance_metric _ _ _ m4) as [m5|] eqn:H5;
    cbn [rbind] in Hrun; [|discriminate Hrun].
  apply efficiency_metric_returned in H1 as [Hf1 Hz1].
  apply throughput_metric_returned in H2 as [Hf2 Hz2].
  apply quality_metrics_returned in H3 as [Hf3 Hz3].
  pose proof (variance_metric_returned _ _ _ _ _ H4) as Hf4.
  pose proof (variance_metric_returned _ _ _ _ _ H5) as Hf5.
  apply completion_metric_returned in Hrun as [Hf6 Hz6].
  assert (Hefficiency :
            metrics !! "processing_efficiency" = m1 !! "processing_efficiency").
  { rewrite Hf6, Hf5, Hf4, Hf3, Hf2 by discriminate. reflexivity. }
  assert (Hthroughput : m1 !! "throughput_per_hour" = None).
  { rewrite Hf1 by discriminate. apply lookup_empty. }
  assert (Hthroughput' :
            metrics !! "throughput_per_hour" = m2 !! "throughput_per_hour").
  { rewrite Hf6, Hf5, Hf4, Hf3 by discriminate. reflexivity. }
  assert (Hquality : forall key, key = "scrap_rate" \/ key = "quality_rate" ->
            metrics !! key = m3 !! key /\ m2 !! key = None).
  { intros key [-> | ->];
      rewrite Hf6, Hf5, Hf4, Hf2, Hf1 by discriminate;
      (split; [reflexivity|apply lookup_empty]). }
  assert (Hcompletion : m5 !! "completion_percentage" = None).
  { rewrite Hf5, Hf4, Hf3, Hf2, Hf1 by discriminate. apply lookup_empty. }
  destruct (Hquality "scrap_rate" (or_introl eq_refl)) as [Hscrap6 Hscrap2].
  destruct (Hquality "quality_rate" (or_intror eq_refl)) as [Hqual6 Hqual2].
  repeat match goal with
         | |- _ /\ _ => split
         | |- _ -> _ => intros Habsent
         end.
  - rewrite Hefficiency, Hz1 by now right. apply lookup_empty.
  - rewrite Hthroughput', Hz2 by now right. exact Hthroughput.
  - rewrite Hefficiency, Hz1 by now left. apply lookup_empty.
  - rewrite Hthroughput', Hz2 by now left. exact Hthroughput.
  - rewrite Hscrap6, Hz3 by now left. exact Hscrap2.
  - rewrite Hqual6, Hz3 by now left. exact Hqual2.
  - rewrite Hz6 by now right. exact Hcompletion.
  - rewrite Hscrap6, Hz3 by now right. exact Hscrap2.
  - rewrite Hqual6, Hz3 by now right. exact Hqual2.
  - rewrite Hz6 by now left. exact Hcompletion.
Qed.

(** With forty minutes of actual time the metrics are computed:
    efficiency 0.75, throughput 60 per hour, scrap rate 0.05. *)
Example calculate_operation_metrics_timed :
  match calculate_operation_metrics timed_operation with
  | Ok metrics =>
      metrics !! "processing_efficiency" = Some (float_of_ratio 3 4)
      /\ metrics !! "throughput_per_hour" = Some (float_lit 60)
      /\ metrics !! "scrap_rate" = Some (float_of_ratio 1 20)
  | Raise _ => False
  end.
Proof. vm_compute. repeat split. Qed.

(** C9 fails on the code: the guards test the stored [Decimal], the
    divisions run on its [float].  With an actual processing time of
    [Decimal("1E-400")] minutes, which is present and positive, the float
    divisor is zero and [calculate_operation_metrics] ends in
    [ZeroDivisionError] instead of leaving the efficiency out. *)
Theorem calculate_operation_metrics_zero_division :
  t_actual_processing_min underflow_operation = Some (1 # Z.to_pos (10 ^ 400))%Q
  /\ decimal_truthy (1 # Z.to_pos (10 ^ 400))%Q = true
  /\ decimal_pos (1 # Z.to_pos (10 ^ 400))%Q = true
  /\ float_of_decimal (1 # Z.to_pos (10 ^ 400))%Q = S754_zero false
  /\ calculate_operation_metrics underflow_operation = Raise ZeroDivisionError.
Proof.
  repeat split; vm_compute; reflexivity.
Qed.

(** *** The validation rules *)

Lemma error_when_nil (test : bool) (message : string) :
  error_when test message = [] <-> test = false.
Proof. destruct test; cbn; split; intros H; first [reflexivity | discriminate H]. Qed.

(** X25: [validate_quantity_relationships] reports nothing exactly when a
    present desired quantity is positive, present processed and scrap
    quantities are not negative, the processed quantity does not exceed the
    desired one, and the scrap quantity does not exceed a non-zero
    processed quantity (scrap against a processed quantity of zero is not
    compared). *)
Theorem validate_quantity_relationships_accepts (data : OperationData) :
  validate_quantity_relationships data = [] <->
  (forall d, d_qty_desired data = Some d -> 0 < d)
  /\ (forall p, d_qty_processed data = Some p -> 0 <= p)
  /\ (forall s, d_qty_scrap data = Some s -> 0 <= s)
  /\ (forall p d, d_qty_processed data = Some p -> d_qty_desired data = Some d -> p <= d)
  /\ (forall s p, d_qty_scrap data = Some s -> d_qty_processed data = Some p ->
                  p <> 0 -> s <= p).
Proof.
  unfold validate_quantity_relationships.
  rewrite !app_nil, !error_when_nil.
  unfold present_and, both_and, int_truthy.
  destruct (d_qty_desired data) as [d|], (d_qty_processed data) as [p|],
           (d_qty_scrap data) as [sc|];
    rewrite ?andb_false_iff, ?negb_false_iff, ?Z.eqb_eq, ?Z.leb_gt, ?Z.ltb_ge;
    split;
    try (intros (Hd & Hp & Hs & Hpd & Hsp);
         repeat split; intros; simplify_eq; try lia;
         repeat match goal with
                | H : _ \/ _ |- _ => destruct H
                end; lia);
    intros (Hd & Hp & Hs & Hpd & Hsp);
    repeat match goal with
           | H : forall x, Some ?v = Some x -> _ |- _ => specialize (H v eq_refl)
           | H : forall x y, Some ?v = Some x -> Some ?w = Some y -> _ |- _ =>
               specialize (H v w eq_refl eq_refl)
           end;
    repeat split; try reflexivity; try lia;
    try (destruct (Z.eq_dec p 0); [left; right; exact e | right; lia]);
    try (destruct (Z.eq_dec p 0); [left; left; exact e | right; lia]).
Qed.

(** X26: the rule reports the processed quantity over the desired one, with
    both numbers in the message, exactly when the two are present and
    non-zero and out of order; these are the requests on which the
    service's own check raises [InvalidQuantity]. *)
Theorem validate_quantity_relationships_reports (data : OperationData) (p d : Z) :
  d_qty_processed data = Some p ->
  d_qty_desired data = Some d ->
  let message := "Processed quantity (" ++ str_of_int p
                 ++ ") cannot exceed desired quantity (" ++ str_of_int d ++ ")" in
  (In message (validate_quantity_relationships data) <-> p <> 0 /\ d <> 0 /\ d < p)
  /\ (In message (validate_quantity_relationships data) <->
      Service.check_processed_desired (Some p) (Some d) =
      Raise (InvalidQuantityException (ProcessedExceedsDesired p d))).
Proof.
  intros Hp Hd message.
  assert (Hin : In message (validate_quantity_relationships data) <->
                int_truthy d && int_truthy p && (d <? p) = true).
  { unfold validate_quantity_relationships. rewrite Hp, Hd.
    cbn [present_and both_and]. unfold message2. cbn [default]. fold message.
    rewrite !in_app_iff. unfold error_when. split.
    - intros [H | [H | [H | [H | H]]]].
      + destruct (d <=? 0); [|destruct H].
        destruct H as [H|[]]. discriminate H.
      + destruct (p <? 0); [|destruct H].
        destruct H as [H|[]]. discriminate H.
      + destruct (present_and _ _); [|destruct H].
        destruct H as [H|[]]. discriminate H.
      + destruct (int_truthy d && int_truthy p && (d <? p)); [reflexivity|destruct H].
      + destruct (match d_qty_scrap data with Some _ => _ | None => _ end);
          [|destruct H].
        destruct H as [H|[]]. discriminate H.
    - intros ->. right. right. right. left. now left. }
  split.
  - rewrite Hin, !andb_true_iff. unfold int_truthy.
    rewrite !negb_true_iff, !Z.eqb_neq, Z.ltb_lt. tauto.
  - rewrite Hin. unfold Service.check_processed_desired.
    rewrite (andb_comm (int_truthy d) (int_truthy p)).
    destruct (int_truthy p && int_truthy d && (d <? p)); split; intros H;
      first [reflexivity | discriminate H].
Qed.

Lemma validate_quantity_relationships_reports_witness :
  In "Processed quantity (150) cannot exceed desired quantity (100)"
     (validate_quantity_relationships
        (data_of_operation
           (model_of_create (Service.wo1_create "PLANNED" 100 150 (Some 0))))).
Proof.
  apply (proj1 (validate_quantity_relationships_reports
                  (data_of_operation
                     (model_of_create (Service.wo1_create "PLANNED" 100 150 (Some 0))))
                  150 100 eq_refl eq_refl)).
  repeat split; lia.
Defined.

(** X27: [validate_status_constraints] reports nothing exactly when an
    operation [IN_PROGRESS] has an actual start, and an operation
    [FINISHED] has an actual start, an actual end and a non-zero processed
    quantity; any other status is not constrained. *)
Theorem validate_status_constraints_accepts (data : OperationData) :
  validate_status_constraints data = [] <->
  (d_status data = Some "IN_PROGRESS" -> is_Some (d_actual_start_at data))
  /\ (d_status data = Some "FINISHED" ->
      is_Some (d_actual_start_at data)
      /\ is_Some (d_actual_end_at data)
      /\ exists p, d_qty_processed data = Some p /\ p <> 0).
Proof.
  unfold validate_status_constraints, status_is.
  destruct (d_status data) as [name|].
  - destruct (String.eqb_spec name "IN_PROGRESS") as [-> | Hprogress].
    + rewrite error_when_nil, negb_false_iff. split.
      * intros Hstart. split; [|discriminate].
        intros _. now destruct (d_actual_start_at data).
      * intros [Hstart _]. destruct (Hstart eq_refl) as [t ->]. reflexivity.
    + destruct (String.eqb_spec name "FINISHED") as [-> | Hfinished].
      * rewrite !app_nil, !error_when_nil, !negb_false_iff. split.
        -- intros (Hstart & Hend & Hqty). split; [discriminate|]. intros _.
           destruct (d_actual_start_at data); [|discriminate Hstart].
           destruct (d_actual_end_at data); [|discriminate Hend].
           destruct (d_qty_processed data) as [p|]; [|discriminate Hqty].
           repeat split; eauto. exists p. split; [reflexivity|].
           unfold not_int, int_truthy in Hqty. intros ->. discriminate Hqty.
        -- intros [_ Hfin]. destruct (Hfin eq_refl) as ([t ->] & [t' ->] & p & -> & Hp).
           repeat split. unfold not_int, int_truthy.
           destruct (Z.eqb_spec p 0); [contradiction|reflexivity].
      * split; [|reflexivity]. intros _.
        split; intros H; injection H as ->; contradiction.
  - split; [|reflexivity]. intros _. split; discriminate.
Qed.

(** *** Which keys a returned map holds *)

Lemma variance_metric_key (name : string) (planned actual : option datetime)
    (metrics metrics' : Metrics) :
  variance_metric name planned actual metrics = Ok metrics' ->
  metrics !! name = None ->
  (is_Some (metrics' !! name) <-> is_Some planned /\ is_Some actual).
Proof.
  unfold variance_metric. intros Hrun Hfresh.
  destruct planned as [p|]; [destruct actual as [a|]|].
  - returned Hrun. rewrite lookup_insert_eq. split; eauto.
  - injection Hrun as <-. rewrite Hfresh. split.
    + intros [v Hv]. discriminate Hv.
    + intros [_ [v Hv]]. discriminate Hv.
  - injection Hrun as <-. rewrite Hfresh. split.
    + intros [v Hv]. discriminate Hv.
    + intros [[v Hv] _]. discriminate Hv.
Qed.

(** X28: in a map that [calculate_operation_metrics] returns, a schedule
    variance is reported exactly when both of its timestamps are present:
    the start variance for the planned and actual start, the end variance
    for the planned and actual end. *)
Theorem variance_reported_iff (operation : MESOperation) (metrics : Metrics) :
  calculate_operation_metrics operation = Ok metrics ->
  (is_Some (metrics !! "start_time_variance_hours") <->
   is_Some (planned_start_at operation) /\ is_Some (actual_start_at operation))
  /\ (is_Some (metrics !! "end_time_variance_hours") <->
      is_Some (planned_end_at operation) /\ is_Some (actual_end_at operation)).
Proof.
  unfold calculate_operation_metrics. intros Hrun.
  destruct (efficiency_metric operation ∅) as [m1|] eqn:H1;
    cbn [rbind] in Hrun; [|discriminate Hrun].
  destruct (throughput_metric operation m1) as [m2|] eqn:H2;
    cbn [rbind] in Hrun; [|discriminate Hrun].
  destruct (quality_metrics operation m2) as [m3|] eqn:H3;
    cbn [rbind] in Hrun; [|discriminate Hrun].
  destruct (variance_metric _ _ _ m3) as [m4|] eqn:H4;
    cbn [rbind] in Hrun; [|discriminate Hrun].
  destruct (variance_metric _ _ _ m4) as [m5|] eqn:H5;
    cbn [rbind] in Hrun; [|discriminate Hrun].
  apply efficiency_metric_returned in H1 as [Hf1 _].
  apply throughput_metric_returned in H2 as [Hf2 _].
  apply quality_metrics_returned in H3 as [Hf3 _].
  pose proof (variance_metric_returned _ _ _ _ _ H4) as Hf4.
  pose proof (variance_metric_returned _ _ _ _ _ H5) as Hf5.
  apply completion_metric_returned in Hrun as [Hf6 _].
  split.
  - rewrite Hf6, Hf5 by discriminate.
    apply (variance_metric_key _ _ _ m3 m4 H4).
    rewrite Hf3, Hf2, Hf1 by discriminate. apply lookup_empty.
  - rewrite Hf6 by discriminate.
    apply (variance_metric_key _ _ _ m4 m5 H5).
    rewrite Hf4, Hf3, Hf2, Hf1 by discriminate. apply lookup_empty.
Qed.

Lemma variance_reported_iff_witness :
  match calculate_operation_metrics timed_operation with
  | Ok metrics => is_Some (metrics !! "start_time_variance_hours")
  | Raise _ => False
  end.
Proof.
  destruct (calculate_operation_metrics timed_operation) as [metrics|e] eqn:Hrun.
  - apply (proj1 (variance_reported_iff timed_operation metrics Hrun)).
    split; eexists; reflexivity.
  - vm_compute in Hrun. discriminate Hrun.
Defined.

End ManufacturingRulesFacts.

(** ** The operation service *)

Module ServiceFacts.
Import Service.

Lemma opt_str_eqb_eq (a b : option string) : opt_str_eqb a b = true <-> a = b.
Proof.
  destruct a as [x|], b as [y|]; simpl; try (split; intros H; discriminate H).
  - rewrite String.eqb_eq. split; congruence.
  - split; reflexivity.
Qed.

Lemma opt_str_eqb_neq (a b : option string) : opt_str_eqb a b = false <-> a <> b.
Proof.
  rewrite <- opt_str_eqb_eq. destruct (opt_str_eqb a b); split; congruence.
Qed.

(** [create] in one equation: the duplicate check, the validation, the
    insert. *)
Lemma create_eq (data : MESOperationCreate) (db : Table) :
  create data db =
  match db !! (c_order_no data, c_asset_id data, c_operation_no data) with
  | Some _ =>
      (Raise (DuplicateOperationException (c_order_no data) (c_asset_id data)
                (c_operation_no data)), db)
  | None =>
      match _validate_operation_data data with
      | Raise e => (Raise e, db)
      | Ok _ =>
          (Ok (model_of_create data),
           <[(c_order_no data, c_asset_id data, c_operation_no data) := model_of_create data]> db)
      end
  end.
Proof.
  unfold create, bind, get_by_id, get_operation.
  destruct (db !! (c_order_no data, c_asset_id data, c_operation_no data)) as [row|] eqn:Hrow;
    [reflexivity|].
  cbn [truthy_obj]. unfold lift.
  destruct (_validate_operation_data data) as [[]|e] eqn:Hvalid; [|reflexivity].
  assert (Hqty : check_processed_desired (c_qty_processed data) (c_qty_desired data) = Ok tt).
  { unfold _validate_operation_data in Hvalid.
    destruct (check_processed_desired (c_qty_processed data) (c_qty_desired data)) as [[]|];
      [reflexivity|discriminate Hvalid]. }
  unfold except_integrity, transaction, create_operation, rollback_and_reraise,
    except_integrity, bind, lift, db_add_commit, ret.
  rewrite Hqty. cbn [order_no asset_id operation_no model_of_create].
  rewrite Hrow. reflexivity.
Qed.

(** [update] of a stored operation in one equation: the status check, the
    quantity checks, the commit. *)
Lemma update_eq (key : Key) (u : MESOperationUpdate) (db : Table) (existing : MESOperation) :
  db !! key = Some existing ->
  update key u db =
  match validate_status_update existing u with
  | Raise e => (Raise e, db)
  | Ok _ =>
      match _validate_quantities_update existing u with
      | Raise e => (Raise e, db)
      | Ok _ =>
          if row_ok (apply_update u existing)
          then (Ok (Some (apply_update u existing)), <[key := apply_update u existing]> db)
          else (Raise (MESOperationException
                         "Database constraint violation during operation update"
                         "integrity_violation"), db)
      end
  end.
Proof.
  destruct key as [[order asset] number]. intros Hrow.
  unfold update, bind, get_by_id, get_operation, lift. rewrite Hrow.
  destruct (validate_status_update existing u) as [[]|e]; [|reflexivity].
  destruct (_validate_quantities_update existing u) as [[]|e] eqn:Hvalid; [|reflexivity].
  assert (Hqty : check_processed_desired
                   (dict_get_default (u_qty_processed u) (qty_processed existing))
                   (dict_get_default (u_qty_desired u) (qty_desired existing)) = Ok tt).
  { unfold _validate_quantities_update in Hvalid.
    destruct (check_processed_desired _ _) as [[]|]; [reflexivity|discriminate Hvalid]. }
  unfold except_integrity, transaction, update_operation, rollback_and_reraise,
    except_integrity, bind, get_operation, lift, db_update_commit, ret.
  rewrite Hrow, Hqty.
  destruct (row_ok (apply_update u existing)); reflexivity.
Qed.

(** [delete] in one equation. *)
Lemma delete_eq (key : Key) (db : Table) :
  delete key db =
  match db !! key with
  | None => (Ok false, db)
  | Some existing =>
      if opt_str_eqb (status existing) (Some "FINISHED")
      then (Raise (InvalidOperationStateException (status existing)
                     "delete finished operation"), db)
      else (Ok true, base.delete key db)
  end.
Proof.
  destruct key as [[order asset] number].
  unfold delete, bind, get_by_id, get_operation.
  destruct (db !! (order, asset, number)) as [existing|] eqn:Hrow; [|reflexivity].
  destruct (opt_str_eqb (status existing) (Some "FINISHED")); [reflexivity|].
  unfold except_integrity, transaction, delete_operation, rollback_and_reraise,
    except_integrity, bind, get_operation, db_delete_commit, ret.
  rewrite Hrow. reflexivity.
Qed.

(** A successful update of a stored operation returns the stored row with
    the set fields applied, and writes it under the key. *)
Lemma update_returns (key : Key) (u : MESOperationUpdate) (db db' : Table)
    (existing updated : MESOperation) :
  db !! key = Some existing ->
  update key u db = (Ok (Some updated), db') ->
  updated = apply_update u existing /\ db' = <[key := updated]> db.
Proof.
  intros Hrow Hrun. rewrite (update_eq key u db existing Hrow) in Hrun.
  destruct (validate_status_update existing u) as [[]|]; [|discriminate Hrun].
  destruct (_validate_quantities_update existing u) as [[]|]; [|discriminate Hrun].
  destruct (row_ok (apply_update u existing)); [|discriminate Hrun].
  injection Hrun as <- <-. split; reflexivity.
Qed.

(** The two quantity checks fire on non-zero operands out of order. *)
Lemma check_processed_desired_raises (p d : Z) :
  p <> 0 -> d <> 0 -> d < p ->
  check_processed_desired (Some p) (Some d) =
  Raise (InvalidQuantityException (ProcessedExceedsDesired p d)).
Proof.
  intros Hp Hd Hlt. unfold check_processed_desired, int_truthy.
  destruct (Z.eqb_spec p 0); [contradiction|].
  destruct (Z.eqb_spec d 0); [contradiction|].
  destruct (Z.ltb_spec d p); [reflexivity|lia].
Qed.

Lemma check_scrap_processed_raises (s p : Z) :
  s <> 0 -> p <> 0 -> p < s ->
  check_scrap_processed (Some s) (Some p) =
  Raise (InvalidQuantityException (ScrapExceedsProcessed s p)).
Proof.
  intros Hs Hp Hlt. unfold check_scrap_processed, int_truthy.
  destruct (Z.eqb_spec s 0); [contradiction|].
  destruct (Z.eqb_spec p 0); [contradiction|].
  destruct (Z.ltb_spec p s); [reflexivity|lia].
Qed.

(** C1, as stated, fails when the desired quantity is zero: creating an
    operation with [qty_processed = 5] and [qty_desired = 0], both present,
    succeeds and the row is stored. *)
Lemma create_processed_over_zero_desired_accepted :
  let data := wo1_create "PLANNED" 0 5 (Some 0) in
  c_qty_processed data = Some 5
  /\ c_qty_desired data = Some 0
  /\ create data ∅ = (Ok (model_of_create data), {[ wo1_key := model_of_create data ]}).
Proof. repeat split. Qed.

(** C1 (amended): when [qty_processed] and [qty_desired] are both present
    and non-zero and [qty_processed > qty_desired] (for an update, each
    taken from the supplied field if set, else from the stored operation),
    [create] and [update] fail and leave the table as it was; the error is
    [InvalidQuantity] unless an earlier check fails first (the key exists
    already, for [create]; the status change is refused, for [update]). *)
Theorem processed_over_desired_rejected (p d : Z) :
  p <> 0 -> d <> 0 -> d < p ->
  (forall (data : MESOperationCreate) (db : Table),
      c_qty_processed data = Some p ->
      c_qty_desired data = Some d ->
      exists e,
        create data db = (Raise e, db)
        /\ (db !! (c_order_no data, c_asset_id data, c_operation_no data) = None ->
            e = InvalidQuantityException (ProcessedExceedsDesired p d)))
  /\ (forall (key : Key) (u : MESOperationUpdate) (db : Table) (existing : MESOperation),
        db !! key = Some existing ->
        dict_get_default (u_qty_processed u) (qty_processed existing) = Some p ->
        dict_get_default (u_qty_desired u) (qty_desired existing) = Some d ->
        exists e,
          update key u db = (Raise e, db)
          /\ (validate_status_update existing u = Ok tt ->
              e = InvalidQuantityException (ProcessedExceedsDesired p d))).
Proof.
  intros Hp Hd Hlt. split.
  - intros data db Hprocessed Hdesired. rewrite create_eq.
    destruct (db !! (c_order_no data, c_asset_id data, c_operation_no data)) as [row|].
    + eexists. split; [reflexivity|]. intros Hnone. discriminate Hnone.
    + unfold _validate_operation_data. rewrite Hprocessed, Hdesired.
      rewrite check_processed_desired_raises by assumption.
      eexists. split; reflexivity.
  - intros key u db existing Hrow Hprocessed Hdesired.
    rewrite (update_eq key u db existing Hrow).
    destruct (validate_status_update existing u) as [[]|e].
    + unfold _validate_quantities_update. rewrite Hprocessed, Hdesired.
      rewrite check_processed_desired_raises by assumption.
      eexists. split; reflexivity.
    + eexists. split; [reflexivity|]. intros Hok. discriminate Hok.
Qed.

(** The witness takes 150 processed against 100 desired: in a creation
    request, and in an update of a stored operation with 100 desired. *)
Lemma processed_over_desired_rejected_witness :
  create (wo1_create "PLANNED" 100 150 (Some 0)) ∅ =
    (Raise (InvalidQuantityException (ProcessedExceedsDesired 150 100)), ∅)
  /\ update wo1_key (set_qty_processed 150) (wo1_table "PLANNED" 100 0) =
       (Raise (InvalidQuantityException (ProcessedExceedsDesired 150 100)),
        wo1_table "PLANNED" 100 0).
Proof.
  assert (H150 : 150 <> 0) by lia.
  assert (H100 : 100 <> 0) by lia.
  assert (Hlt : 100 < 150) by lia.
  destruct (processed_over_desired_rejected 150 100 H150 H100 Hlt) as [Hcreate Hupdate].
  split.
  - destruct (Hcreate (wo1_create "PLANNED" 100 150 (Some 0)) ∅ eq_refl eq_refl)
      as (e & Hrun & He).
    rewrite Hrun, He; reflexivity.
  - destruct (Hupdate wo1_key (set_qty_processed 150) (wo1_table "PLANNED" 100 0)
                (model_of_create (wo1_create "PLANNED" 100 0 (Some 0)))
                eq_refl eq_refl eq_refl)
      as (e & Hrun & He).
    rewrite Hrun, He; reflexivity.
Defined.

(** C5, as stated, fails on [create], which compares no scrap quantity, and
    on an [update] whose processed quantity is zero: both requests below
    carry [qty_scrap > qty_processed], both present, and both succeed. *)
Lemma scrap_over_processed_accepted :
  (let data := wo1_create "PLANNED" 100 5 (Some 10) in
   c_qty_scrap data = Some 10
   /\ c_qty_processed data = Some 5
   /\ create data ∅ = (Ok (model_of_create data), {[ wo1_key := model_of_create data ]}))
  /\ (let db := wo1_table "PLANNED" 100 0 in
      exists updated,
        update wo1_key (set_qty_scrap 5) db = (Ok (Some updated), <[wo1_key := updated]> db)
        /\ qty_scrap updated = Some 5
        /\ qty_processed updated = Some 0).
Proof.
  split.
  - repeat split.
  - eexists. repeat split.
Qed.

(** C5 (amended): for every update of a stored operation whose merged view
    (supplied fields over stored values) has [qty_scrap] and
    [qty_processed] both present and non-zero with
    [qty_scrap > qty_processed], [update] fails and leaves the table as it
    was; the error is an [InvalidQuantity] unless the status change is
    refused first. *)
Theorem update_scrap_over_processed_rejected (key : Key) (u : MESOperationUpdate)
    (db : Table) (existing : MESOperation) (s p : Z) :
  db !! key = Some existing ->
  dict_get_default (u_qty_scrap u) (qty_scrap existing) = Some s ->
  dict_get_default (u_qty_processed u) (qty_processed existing) = Some p ->
  s <> 0 -> p <> 0 -> p < s ->
  exists e,
    update key u db = (Raise e, db)
    /\ (validate_status_update existing u = Ok tt ->
        error_type e = Some "invalid_quantity"
        /\ (check_processed_desired (Some p)
              (dict_get_default (u_qty_desired u) (qty_desired existing)) = Ok tt ->
            e = InvalidQuantityException (ScrapExceedsProcessed s p))).
Proof.
  intros Hrow Hscrap Hprocessed Hs Hp Hlt.
  rewrite (update_eq key u db existing Hrow).
  destruct (validate_status_update existing u) as [[]|e].
  - unfold _validate_quantities_update. rewrite Hscrap, Hprocessed.
    destruct (check_processed_desired (Some p) _) as [[]|e] eqn:Hcheck.
    + cbn [rbind]. rewrite check_scrap_processed_raises by assumption.
      eexists. repeat split.
    + exists e. split; [reflexivity|]. intros _. split.
      * unfold check_processed_desired in Hcheck.
        destruct (dict_get_default (u_qty_desired u) (qty_desired existing)) as [d|];
          [|discriminate Hcheck].
        destruct (int_truthy p && int_truthy d && (d <? p));
          [|discriminate Hcheck].
        injection Hcheck as <-. reflexivity.
      * intros Hok. discriminate Hok.
  - eexists. split; [reflexivity|]. intros Hok. discriminate Hok.
Qed.

(** The witness reports 60 scrapped against 40 processed. *)
Lemma update_scrap_over_processed_rejected_witness :
  update wo1_key (set_qty_scrap 60) (wo1_table "IN_PROGRESS" 100 40) =
  (Raise (InvalidQuantityException (ScrapExceedsProcessed 60 40)),
   wo1_table "IN_PROGRESS" 100 40).
Proof.
  assert (H60 : 60 <> 0) by lia.
  assert (H40 : 40 <> 0) by lia.
  assert (Hlt : 40 < 60) by lia.
  destruct (update_scrap_over_processed_rejected wo1_key (set_qty_scrap 60)
              (wo1_table "IN_PROGRESS" 100 40)
              (model_of_create (wo1_create "IN_PROGRESS" 100 40 (Some 0))) 60 40
              eq_refl eq_refl eq_refl H60 H40 Hlt)
    as (e & Hrun & He).
  rewrite Hrun.
  destruct (He eq_refl) as [_ Hscrap]. rewrite (Hscrap eq_refl). reflexivity.
Defined.

(** C6: an update of a stored operation that is rejected (by the status
    check, by a quantity check such as 150 processed against 100 desired,
    or by the storage) writes nothing: the table is the one before the
    attempt, and fetching the key returns the operation unchanged. *)
Theorem update_rejected_no_write (key : Key) (u : MESOperationUpdate)
    (db db' : Table) (existing : MESOperation) (e : exn) :
  db !! key = Some existing ->
  update key u db = (Raise e, db') ->
  db' = db /\ get_by_id key db' = (Ok (Some existing), db').
Proof.
  intros Hrow Hrun.
  rewrite (update_eq key u db existing Hrow) in Hrun.
  assert (Hsame : db' = db).
  { destruct (validate_status_update existing u) as [[]|];
      [|now injection Hrun].
    destruct (_validate_quantities_update existing u) as [[]|];
      [|now injection Hrun].
    destruct (row_ok (apply_update u existing)); [discriminate Hrun|now injection Hrun]. }
  split; [exact Hsame|].
  subst db'. destruct key as [[order asset] number].
  unfold get_by_id, get_operation. rewrite Hrow. reflexivity.
Qed.

(** The scenario of the specification: [qty_processed = 150] against a
    stored [qty_desired = 100]. *)
Lemma update_rejected_no_write_witness :
  update wo1_key (set_qty_processed 150) (wo1_table "PLANNED" 100 0) =
    (Raise (InvalidQuantityException (ProcessedExceedsDesired 150 100)),
     wo1_table "PLANNED" 100 0)
  /\ get_by_id wo1_key (wo1_table "PLANNED" 100 0) =
       (Ok (Some (model_of_create (wo1_create "PLANNED" 100 0 (Some 0)))),
        wo1_table "PLANNED" 100 0).
Proof.
  split; [reflexivity|].
  apply (update_rejected_no_write wo1_key (set_qty_processed 150)
           (wo1_table "PLANNED" 100 0) (wo1_table "PLANNED" 100 0)
           (model_of_create (wo1_create "PLANNED" 100 0 (Some 0)))
           (InvalidQuantityException (ProcessedExceedsDesired 150 100))).
  - reflexivity.
  - reflexivity.
Defined.

(** C7, as stated, fails on a key that is not stored: [delete] returns
    [False] there and raises no [NotFound]. *)
Lemma delete_missing_returns_false :
  delete wo1_key ∅ = (Ok false, ∅).
Proof. reflexivity. Qed.

(** C7 (amended): [delete(key)] returns [False], raising nothing and
    writing nothing, when no operation is stored under the key; it fails
    with [InvalidState] when the stored operation is [FINISHED], leaving
    the operation in place; for any other stored operation it returns
    [True], after which fetching the key returns absent. *)
Theorem delete_outcomes (key : Key) (db : Table) :
  (db !! key = None -> delete key db = (Ok false, db))
  /\ (forall existing,
        db !! key = Some existing ->
        status existing = Some "FINISHED" ->
        delete key db =
          (Raise (InvalidOperationStateException (Some "FINISHED")
                    "delete finished operation"), db)
        /\ get_by_id key db = (Ok (Some existing), db))
  /\ (forall existing,
        db !! key = Some existing ->
        status existing <> Some "FINISHED" ->
        exists db',
          delete key db = (Ok true, db')
          /\ get_by_id key db' = (Ok None, db')).
Proof.
  assert (Hfetch : forall (table : Table) (row : option MESOperation),
            table !! key = row -> get_by_id key table = (Ok row, table)).
  { intros table row <-. destruct key as [[order asset] number]. reflexivity. }
  rewrite delete_eq. split; [|split].
  - intros ->. reflexivity.
  - intros existing Hrow Hstatus. rewrite Hrow, Hstatus. split; [reflexivity|].
    now apply Hfetch.
  - intros existing Hrow Hstatus. rewrite Hrow.
    apply opt_str_eqb_neq in Hstatus. rewrite Hstatus.
    exists (base.delete key db). split; [reflexivity|].
    apply Hfetch, lookup_delete_eq.
Qed.

(** The witness deletes a finished operation, which is refused, and a
    planned one, which is removed. *)
Lemma delete_outcomes_witness :
  delete wo1_key (wo1_table "FINISHED" 100 100) =
    (Raise (InvalidOperationStateException (Some "FINISHED") "delete finished operation"),
     wo1_table "FINISHED" 100 100)
  /\ exists db',
       delete wo1_key (wo1_table "PLANNED" 100 0) = (Ok true, db')
       /\ get_by_id wo1_key db' = (Ok None, db').
Proof.
  split.
  - apply (proj1 (proj2 (delete_outcomes wo1_key (wo1_table "FINISHED" 100 100)))
             (model_of_create (wo1_create "FINISHED" 100 100 (Some 0)))).
    + reflexivity.
    + reflexivity.
  - apply (proj2 (proj2 (delete_outcomes wo1_key (wo1_table "PLANNED" 100 0)))
             (model_of_create (wo1_create "PLANNED" 100 0 (Some 0)))).
    + reflexivity.
    + simpl. discriminate.
Defined.

(** The fields [finish_operation] passes to [MESOperationUpdate] are valid
    when the final quantity is absent or not negative. *)
Lemma finish_update_valid (final_quantity : option Z) (now_end now_stamp : datetime) :
  (forall q, final_quantity = Some q -> 0 <= q) ->
  new_MESOperationUpdate (finish_update final_quantity now_end now_stamp) =
  Ok (finish_update final_quantity now_end now_stamp).
Proof.
  intros Hq. unfold new_MESOperationUpdate, update_fields_valid. simpl.
  destruct final_quantity as [q|]; simpl; [|reflexivity].
  specialize (Hq q eq_refl). destruct (Z.leb_spec 0 q); [reflexivity|lia].
Qed.

(** C8: for every stored operation whose status is not [IN_PROGRESS],
    [finish(key, final_quantity?)] fails with an [InvalidStateTransition]
    error and the table is unchanged; when the status is [IN_PROGRESS] it
    proceeds as the update that sets [status = FINISHED] and
    [actual_end_at], and [qty_processed] when a final quantity is given
    (a final quantity satisfies the schema's [ge=0]). *)
Theorem finish_requires_in_progress (key : Key) (final_quantity : option Z)
    (now_end now_stamp : datetime) (db : Table) (operation : MESOperation) :
  db !! key = Some operation ->
  (status operation <> Some "IN_PROGRESS" ->
   exists e,
     finish_operation key final_quantity now_end now_stamp db = (Raise e, db)
     /\ e = InvalidOperationStateException (status operation) "finish operation"
     /\ error_type e = Some "invalid_state_transition")
  /\ (status operation = Some "IN_PROGRESS" ->
      (forall q, final_quantity = Some q -> 0 <= q) ->
      let update_data := finish_update final_quantity now_end now_stamp in
      finish_operation key final_quantity now_end now_stamp db = update key update_data db
      /\ u_status update_data = Some (Some "FINISHED")
      /\ u_actual_end_at update_data = Some (Some now_end)
      /\ u_qty_processed update_data = option_map Some final_quantity
      /\ (forall updated db',
            update key update_data db = (Ok (Some updated), db') ->
            db' !! key = Some updated
            /\ status updated = Some "FINISHED"
            /\ actual_end_at updated = Some now_end
            /\ qty_processed updated =
               match final_quantity with
               | Some q => Some q
               | None => qty_processed operation
               end)).
Proof.
  intros Hrow. split.
  - intros Hstatus. apply opt_str_eqb_neq in Hstatus.
    destruct key as [[order asset] number].
    unfold finish_operation, bind, get_by_id, get_operation.
    rewrite Hrow, Hstatus. eexists. repeat split.
  - intros Hstatus Hq update_data.
    split; [|split; [reflexivity|split; [reflexivity|split; [reflexivity|]]]].
    + assert (Heqb : opt_str_eqb (status operation) (Some "IN_PROGRESS") = true)
        by now apply opt_str_eqb_eq.
      destruct key as [[order asset] number].
      unfold finish_operation, bind, get_by_id, get_operation, lift.
      rewrite Hrow, Heqb. cbn [negb].
      rewrite (finish_update_valid final_quantity now_end now_stamp Hq). reflexivity.
    + intros updated db' Hrun.
      destruct (update_returns key update_data db db' operation updated Hrow Hrun)
        as [-> ->].
      split; [apply lookup_insert_eq|].
      repeat split. destruct final_quantity; reflexivity.
Qed.

(** The witness finishes a planned operation, which is refused, and an
    operation in progress with a final quantity of 100. *)
Lemma finish_requires_in_progress_witness :
  finish_operation wo1_key (Some 100) 3000 3001 (wo1_table "PLANNED" 100 0) =
    (Raise (InvalidOperationStateException (Some "PLANNED") "finish operation"),
     wo1_table "PLANNED" 100 0)
  /\ finish_operation wo1_key (Some 100) 3000 3001 (wo1_table "IN_PROGRESS" 100 40) =
       update wo1_key (finish_update (Some 100) 3000 3001) (wo1_table "IN_PROGRESS" 100 40).
Proof.
  assert (Hq : forall q : Z, Some 100 = Some q -> 0 <= q).
  { intros q Hq. injection Hq as <-. lia. }
  split.
  - destruct (finish_requires_in_progress wo1_key (Some 100) 3000 3001
                (wo1_table "PLANNED" 100 0)
                (model_of_create (wo1_create "PLANNED" 100 0 (Some 0)))
                eq_refl) as [Hrefused _].
    destruct Hrefused as (e & Hrun & -> & _); [simpl; discriminate|].
    exact Hrun.
  - destruct (finish_requires_in_progress wo1_key (Some 100) 3000 3001
                (wo1_table "IN_PROGRESS" 100 40)
                (model_of_create (wo1_create "IN_PROGRESS" 100 40 (Some 0)))
                eq_refl) as [_ Hproceeds].
    apply (Hproceeds eq_refl Hq).
Defined.

(** The scenario of the specification: created as [PLANNED], released,
    started and finished with a final quantity of 100, the operation is
    [FINISHED] with both actual times set, and deleting it is refused. *)
Example workflow_scenario :
  match wo1_workflow ∅ with
  | (Ok (Some started, Some finished), db) =>
      status started = Some "IN_PROGRESS"
      /\ actual_start_at started = Some 2000
      /\ status finished = Some "FINISHED"
      /\ actual_end_at finished = Some 3000
      /\ qty_processed finished = Some 100
      /\ db !! wo1_key = Some finished
      /\ (delete wo1_key db).1 =
           Raise (InvalidOperationStateException (Some "FINISHED")
                    "delete finished operation")
      /\ (delete wo1_key db).2 !! wo1_key = Some finished
  | _ => False
  end.
Proof. vm_compute. repeat split. Qed.

(** *** Further properties of the service *)

Lemma get_by_id_eq (key : Key) (db : Table) :
  get_by_id key db = (Ok (db !! key), db).
Proof. destruct key as [[order asset] number]. reflexivity. Qed.

(** [start_operation] and [finish_operation] in one equation each. *)
Lemma start_operation_eq (key : Key) (now_start now_stamp : datetime) (db : Table) :
  start_operation key now_start now_stamp db =
  match db !! key with
  | None => (Raise (OperationNotFoundException key.1.1 key.1.2 key.2), db)
  | Some operation =>
      if opt_str_in (status operation) ["RELEASED"; "ON_HOLD"]
      then update key (start_update now_start now_stamp) db
      else (Raise (InvalidOperationStateException (status operation) "start operation"), db)
  end.
Proof.
  destruct key as [[order asset] number].
  unfold start_operation, bind, get_by_id, get_operation.
  destruct (db !! (order, asset, number)) as [operation|]; [|reflexivity].
  destruct (opt_str_in (status operation) ["RELEASED"; "ON_HOLD"]); reflexivity.
Qed.

Lemma finish_operation_eq (key : Key) (final_quantity : option Z)
    (now_end now_stamp : datetime) (db : Table) :
  finish_operation key final_quantity now_end now_stamp db =
  match db !! key with
  | None => (Raise (OperationNotFoundException key.1.1 key.1.2 key.2), db)
  | Some operation =>
      if opt_str_eqb (status operation) (Some "IN_PROGRESS")
      then
        match new_MESOperationUpdate (finish_update final_quantity now_end now_stamp) with
        | Ok update_data => update key update_data db
        | Raise e => (Raise e, db)
        end
      else (Raise (InvalidOperationStateException (status operation) "finish operation"), db)
  end.
Proof.
  destruct key as [[order asset] number].
  unfold finish_operation, bind, get_by_id, get_operation, lift.
  destruct (db !! (order, asset, number)) as [operation|]; [|reflexivity].
  destruct (opt_str_eqb (status operation) (Some "IN_PROGRESS")); [|reflexivity].
  cbn [negb].
  destruct (new_MESOperationUpdate _); reflexivity.
Qed.

(** The service's own table of next states, read as the code reads it. *)
Lemma valid_next_states_known (s : StateMachine.OperationStatus) :
  default [] (dict_get VALID_STATE_TRANSITIONS (StateMachine.value s)) =
  match s with
  | StateMachine.PLANNED => ["RELEASED"; "CANCELLED"]
  | StateMachine.RELEASED => ["IN_PROGRESS"; "CANCELLED"; "ON_HOLD"]
  | StateMachine.IN_PROGRESS => ["FINISHED"; "ON_HOLD"; "CANCELLED"]
  | StateMachine.ON_HOLD => ["IN_PROGRESS"; "CANCELLED"]
  | StateMachine.FINISHED | StateMachine.CANCELLED => []
  end.
Proof. destruct s; reflexivity. Qed.

Lemma valid_next_states_unknown (name : string) :
  StateMachine.OperationStatus_of name = None ->
  dict_get VALID_STATE_TRANSITIONS name = None.
Proof.
  intros Hunknown. unfold VALID_STATE_TRANSITIONS. cbn [dict_get].
  repeat match goal with
         | |- context [String.eqb ?known name] =>
             let Heq := fresh "Heq" in
             destruct (String.eqb known name) eqn:Heq;
             [apply String.eqb_eq in Heq; subst name; discriminate Hunknown|]
         end.
  reflexivity.
Qed.

(** X8: the service's [VALID_STATE_TRANSITIONS] and the state machine's
    transition table describe the same graph: for every pair of names, the
    service lists the target among the next states of the source exactly
    when the state machine lists it among the valid transitions. *)
Theorem state_tables_agree (current_status new_status : string) :
  In new_status (default [] (dict_get VALID_STATE_TRANSITIONS current_status))
  <-> In new_status (StateMachine.get_valid_transitions current_status).
Proof.
  unfold StateMachine.get_valid_transitions.
  destruct (StateMachine.OperationStatus_of current_status) as [s|] eqn:Hs.
  - apply StateMachineFacts.OperationStatus_of_Some in Hs. subst current_status.
    rewrite valid_next_states_known. destruct s; cbn; tauto.
  - rewrite valid_next_states_unknown by exact Hs. reflexivity.
Qed.

(** X9: on a key that is not stored, [update], [start_operation] and
    [finish_operation] raise [OperationNotFound] for that key and write
    nothing, and fetching the key returns absent. *)
Theorem missing_key_not_found (key : Key) (db : Table) :
  db !! key = None ->
  let not_found := OperationNotFoundException key.1.1 key.1.2 key.2 in
  get_by_id key db = (Ok None, db)
  /\ (forall u, update key u db = (Raise not_found, db))
  /\ (forall now_start now_stamp,
        start_operation key now_start now_stamp db = (Raise not_found, db))
  /\ (forall final_quantity now_end now_stamp,
        finish_operation key final_quantity now_end now_stamp db = (Raise not_found, db)).
Proof.
  intros Hmissing not_found. repeat split.
  - rewrite get_by_id_eq, Hmissing. reflexivity.
  - intros u. destruct key as [[order asset] number].
    unfold update, bind, get_by_id, get_operation. rewrite Hmissing. reflexivity.
  - intros now_start now_stamp. rewrite start_operation_eq, Hmissing. reflexivity.
  - intros final_quantity now_end now_stamp.
    rewrite finish_operation_eq, Hmissing. reflexivity.
Qed.

Lemma missing_key_not_found_witness :
  update ("WO-2", 1, "0010") (set_qty_processed 5) (wo1_table "PLANNED" 100 0) =
  (Raise (OperationNotFoundException "WO-2" 1 "0010"), wo1_table "PLANNED" 100 0).
Proof.
  apply (missing_key_not_found ("WO-2", 1, "0010") (wo1_table "PLANNED" 100 0)).
  reflexivity.
Defined.




(** X11: a [create] that succeeds found the key free, returns the row built
    from the request, and stores it: fetching the key returns that row and
    every other key is as before. *)
Theorem create_stores_row (data : MESOperationCreate) (db db' : Table)
    (created : MESOperation) :
  create data db = (Ok created, db') ->
  let key := (c_order_no data, c_asset_id data, c_operation_no data) in
  db !! key = None
  /\ created = model_of_create data
  /\ get_by_id key db' = (Ok (Some created), db')
  /\ (forall other, other <> key -> db' !! other = db !! other).
Proof.
  rewrite create_eq. intros Hrun key. fold key in Hrun.
  destruct (db !! key) as [row|] eqn:Hrow; [discriminate Hrun|].
  destruct (_validate_operation_data data) as [[]|]; [|discriminate Hrun].
  injection Hrun as <- <-. repeat split.
  - rewrite get_by_id_eq, lookup_insert_eq. reflexivity.
  - intros other Hother. now rewrite lookup_insert_ne.
Qed.

Lemma create_stores_row_witness :
  let data := wo1_create "PLANNED" 100 0 (Some 0) in
  exists db',
    create data ∅ = (Ok (model_of_create data), db')
    /\ get_by_id wo1_key db' = (Ok (Some (model_of_create data)), db').
Proof.
  intros data.
  exists {[ wo1_key := model_of_create data ]}.
  assert (Hrun : create data ∅ =
                 (Ok (model_of_create data), {[ wo1_key := model_of_create data ]}))
    by reflexivity.
  split; [exact Hrun|].
  apply (create_stores_row data ∅ _ _ Hrun).
Defined.

(** X12: [create] refuses planned times that are out of order: with
    [planned_start_at >= planned_end_at] it fails and writes nothing, and
    the error is the [time_validation] one whenever the key is free and the
    quantities pass. *)
Theorem create_planned_times_out_of_order (data : MESOperationCreate) (db : Table)
    (planned_start planned_end : datetime) :
  c_planned_start_at data = Some planned_start ->
  c_planned_end_at data = Some planned_end ->
  planned_end <= planned_start ->
  exists e,
    create data db = (Raise e, db)
    /\ (db !! (c_order_no data, c_asset_id data, c_operation_no data) = None ->
        check_processed_desired (c_qty_processed data) (c_qty_desired data) = Ok tt ->
        e = InvalidOperationStateException (Some "time_validation")
              "Planned start time must be before end time").
Proof.
  intros Hstart Hend Horder. rewrite create_eq.
  destruct (db !! (c_order_no data, c_asset_id data, c_operation_no data)) as [row|].
  - eexists. split; [reflexivity|]. intros Hfree. discriminate Hfree.
  - unfold _validate_operation_data. rewrite Hstart, Hend.
    destruct (check_processed_desired _ _) as [[]|e]; cbn [rbind].
    + destruct (Z.leb_spec planned_end planned_start); [|lia].
      eexists. split; reflexivity.
    + eexists. split; [reflexivity|]. intros _ Hok. discriminate Hok.
Qed.

Lemma create_planned_times_out_of_order_witness :
  create (wo1_create_planned 9000 9000) ∅ =
  (Raise (InvalidOperationStateException (Some "time_validation")
            "Planned start time must be before end time"), ∅).
Proof.
  assert (Horder : 9000 <= 9000) by lia.
  destruct (create_planned_times_out_of_order (wo1_create_planned 9000 9000) ∅
              9000 9000 eq_refl eq_refl Horder) as (e & Hrun & He).
  rewrite Hrun, He; reflexivity.
Defined.

Lemma dict_get_default_idem {A} (set_field : option (option A)) (existing : option A) :
  dict_get_default set_field (dict_get_default set_field existing) =
  dict_get_default set_field existing.
Proof. now destruct set_field. Qed.

Lemma apply_update_idem (u : MESOperationUpdate) (op : MESOperation) :
  apply_update u (apply_update u op) = apply_update u op.
Proof.
  unfold apply_update. cbn. now rewrite !dict_get_default_idem.
Qed.

(** A stored row of a successful update passes the same status check again:
    the status it asked for is now the current one. *)
Lemma validate_status_update_again (u : MESOperationUpdate) (op : MESOperation) :
  validate_status_update (apply_update u op) u = Ok tt.
Proof.
  unfold validate_status_update, _validate_state_transition.
  destruct (u_status u) as [new_status|] eqn:Hstatus; [|reflexivity].
  cbn [apply_update status]. rewrite Hstatus. cbn [dict_get_default].
  now rewrite (proj2 (opt_str_eqb_eq new_status new_status) eq_refl).
Qed.

Lemma validate_quantities_update_again (u : MESOperationUpdate) (op : MESOperation) :
  _validate_quantities_update (apply_update u op) u = _validate_quantities_update op u.
Proof.
  unfold _validate_quantities_update. cbn [apply_update qty_processed qty_desired qty_scrap].
  now rewrite !dict_get_default_idem.
Qed.

(** What a successful update of a stored operation went through. *)
Lemma update_succeeded (key : Key) (u : MESOperationUpdate) (db db' : Table)
    (existing : MESOperation) (returned : option MESOperation) :
  db !! key = Some existing ->
  update key u db = (Ok returned, db') ->
  validate_status_update existing u = Ok tt
  /\ _validate_quantities_update existing u = Ok tt
  /\ row_ok (apply_update u existing) = true
  /\ returned = Some (apply_update u existing)
  /\ db' = <[key := apply_update u existing]> db.
Proof.
  intros Hrow Hrun. rewrite (update_eq key u db existing Hrow) in Hrun.
  destruct (validate_status_update existing u) as [[]|]; [|discriminate Hrun].
  destruct (_validate_quantities_update existing u) as [[]|]; [|discriminate Hrun].
  destruct (row_ok (apply_update u existing)); [|discriminate Hrun].
  injection Hrun as <- <-. repeat split.
Qed.

Lemma update_stored (key : Key) (u : MESOperationUpdate) (db db' : Table)
    (returned : option MESOperation) :
  update key u db = (Ok returned, db') ->
  exists existing, db !! key = Some existing.
Proof.
  intros Hrun. destruct (db !! key) as [existing|] eqn:Hrow; [now exists existing|].
  destruct key as [[order asset] number].
  unfold update, bind, get_by_id, get_operation in Hrun. rewrite Hrow in Hrun.
  discriminate Hrun.
Qed.

(** X13: [update] is idempotent: when an update succeeds, applying the same
    update again succeeds too, returns the same row and leaves the table as
    the first one left it. *)
Theorem update_idempotent (key : Key) (u : MESOperationUpdate) (db db' : Table)
    (returned : option MESOperation) :
  update key u db = (Ok returned, db') ->
  update key u db' = (Ok returned, db').
Proof.
  intros Hrun.
  destruct (update_stored key u db db' returned Hrun) as [existing Hrow].
  destruct (update_succeeded key u db db' existing returned Hrow Hrun)
    as (_ & Hqty & Hok & -> & ->).
  rewrite (update_eq key u _ (apply_update u existing)) by apply lookup_insert_eq.
  rewrite validate_status_update_again, validate_quantities_update_again, Hqty.
  rewrite apply_update_idem, Hok, insert_insert_eq. reflexivity.
Qed.

Lemma update_idempotent_witness :
  let db' := <[wo1_key := apply_update (set_qty_processed 60)
                            (model_of_create (wo1_create "IN_PROGRESS" 100 40 (Some 0)))]>
               (wo1_table "IN_PROGRESS" 100 40) in
  update wo1_key (set_qty_processed 60) db' =
  (Ok (Some (apply_update (set_qty_processed 60)
               (model_of_create (wo1_create "IN_PROGRESS" 100 40 (Some 0))))), db').
Proof.
  intros db'.
  apply (update_idempotent wo1_key (set_qty_processed 60) (wo1_table "IN_PROGRESS" 100 40)).
  reflexivity.
Defined.

(** X14: a successful [update] writes one row: the key columns of the row
    are as before, the row is stored under the key it was asked for, and
    every other key of the table is untouched. *)
Theorem update_writes_one_row (key : Key) (u : MESOperationUpdate) (db db' : Table)
    (existing updated : MESOperation) :
  db !! key = Some existing ->
  update key u db = (Ok (Some updated), db') ->
  db' !! key = Some updated
  /\ (order_no updated, asset_id updated, operation_no updated) =
     (order_no existing, asset_id existing, operation_no existing)
  /\ (forall other, other <> key -> db' !! other = db !! other).
Proof.
  intros Hrow Hrun.
  destruct (update_succeeded key u db db' existing _ Hrow Hrun)
    as (_ & _ & _ & Hreturned & ->).
  injection Hreturned as ->. repeat split.
  - apply lookup_insert_eq.
  - intros other Hother. now rewrite lookup_insert_ne.
Qed.

Lemma update_writes_one_row_witness :
  exists updated db',
    update wo1_key (set_status "RELEASED") (wo1_table "PLANNED" 100 0) =
      (Ok (Some updated), db')
    /\ db' !! wo1_key = Some updated
    /\ db' !! ("WO-2", 1, "0010") = None.
Proof.
  pose (existing := model_of_create (wo1_create "PLANNED" 100 0 (Some 0))).
  pose (updated := apply_update (set_status "RELEASED") existing).
  exists updated, (<[wo1_key := updated]> (wo1_table "PLANNED" 100 0)).
  assert (Hrun : update wo1_key (set_status "RELEASED") (wo1_table "PLANNED" 100 0) =
                 (Ok (Some updated), <[wo1_key := updated]> (wo1_table "PLANNED" 100 0)))
    by reflexivity.
  destruct (update_writes_one_row wo1_key (set_status "RELEASED")
              (wo1_table "PLANNED" 100 0) _ existing updated eq_refl Hrun)
    as (Hstored & _ & Hothers).
  split; [exact Hrun|]. split; [exact Hstored|].
  rewrite Hothers by discriminate. reflexivity.
Defined.

(** X15: a terminal status is frozen: for an operation stored as [FINISHED]
    or [CANCELLED], every update that sets a different status (a known
    one, an unknown one or [None]) is refused with the invalid-state error
    and writes nothing. *)
Theorem terminal_status_frozen (key : Key) (u : MESOperationUpdate) (db : Table)
    (existing : MESOperation) (new_status : option string) :
  db !! key = Some existing ->
  status existing = Some "FINISHED" \/ status existing = Some "CANCELLED" ->
  u_status u = Some new_status ->
  new_status <> status existing ->
  update key u db =
  (Raise (InvalidOperationStateException (status existing)
            ("transition to " ++ opt_str_format new_status)), db).
Proof.
  intros Hrow Hterminal Hset Hdiffers.
  rewrite (update_eq key u db existing Hrow).
  unfold validate_status_update, _validate_state_transition. rewrite Hset.
  assert (Hneq : opt_str_eqb (status existing) new_status = false).
  { apply opt_str_eqb_neq. congruence. }
  rewrite Hneq.
  destruct Hterminal as [-> | ->]; destruct new_status; reflexivity.
Qed.

Lemma terminal_status_frozen_witness :
  update wo1_key (set_status "IN_PROGRESS") (wo1_table "FINISHED" 100 100) =
  (Raise (InvalidOperationStateException (Some "FINISHED") "transition to IN_PROGRESS"),
   wo1_table "FINISHED" 100 100).
Proof.
  apply (terminal_status_frozen wo1_key (set_status "IN_PROGRESS")
           (wo1_table "FINISHED" 100 100)
           (model_of_create (wo1_create "FINISHED" 100 100 (Some 0)))
           (Some "IN_PROGRESS")).
  - reflexivity.
  - left. reflexivity.
  - reflexivity.
  - simpl. discriminate.
Defined.

Lemma check_processed_desired_passed (p d : Z) :
  check_processed_desired (Some p) (Some d) = Ok tt ->
  p <> 0 -> d <> 0 -> p <= d.
Proof.
  unfold check_processed_desired, int_truthy. intros Hpass Hp Hd.
  destruct (Z.eqb_spec p 0); [contradiction|].
  destruct (Z.eqb_spec d 0); [contradiction|].
  destruct (Z.ltb_spec d p); [discriminate Hpass|lia].
Qed.

Lemma check_scrap_processed_passed (s p : Z) :
  check_scrap_processed (Some s) (Some p) = Ok tt ->
  s <> 0 -> p <> 0 -> s <= p.
Proof.
  unfold check_scrap_processed, int_truthy. intros Hpass Hs Hp.
  destruct (Z.eqb_spec s 0); [contradiction|].
  destruct (Z.eqb_spec p 0); [contradiction|].
  destruct (Z.ltb_spec p s); [discriminate Hpass|lia].
Qed.

(** X16: what the service stores keeps the quantities in order, as far as
    they are non-zero: the row of a successful [update] has
    [qty_processed <= qty_desired] and [qty_scrap <= qty_processed]
    whenever both sides are present and non-zero, and the row of a
    successful [create] has the first of the two. *)
Theorem stored_quantities_ordered :
  (forall (key : Key) (u : MESOperationUpdate) (db db' : Table)
          (existing updated : MESOperation),
      db !! key = Some existing ->
      update key u db = (Ok (Some updated), db') ->
      (forall p d, qty_processed updated = Some p -> qty_desired updated = Some d ->
                   p <> 0 -> d <> 0 -> p <= d)
      /\ (forall s p, qty_scrap updated = Some s -> qty_processed updated = Some p ->
                      s <> 0 -> p <> 0 -> s <= p))
  /\ (forall (data : MESOperationCreate) (db db' : Table) (created : MESOperation),
        create data db = (Ok created, db') ->
        forall p d, qty_processed created = Some p -> qty_desired created = Some d ->
                    p <> 0 -> d <> 0 -> p <= d).
Proof.
  split.
  - intros key u db db' existing updated Hrow Hrun.
    destruct (update_succeeded key u db db' existing _ Hrow Hrun)
      as (_ & Hqty & _ & Hreturned & _).
    injection Hreturned as ->.
    unfold _validate_quantities_update in Hqty.
    cbn [apply_update qty_processed qty_desired qty_scrap].
    destruct (check_processed_desired _ _) as [[]|] eqn:Hfirst;
      cbn [rbind] in Hqty; [|discriminate Hqty].
    split.
    + intros p d Hp Hd. rewrite Hp, Hd in Hfirst.
      now apply check_processed_desired_passed.
    + intros sc p Hs Hp. rewrite Hs, Hp in Hqty.
      now apply check_scrap_processed_passed.
  - intros data db db' created. rewrite create_eq. intros Hrun p d.
    destruct (db !! _); [discriminate Hrun|].
    destruct (_validate_operation_data data) as [[]|] eqn:Hvalid; [|discriminate Hrun].
    injection Hrun as <- <-. cbn [model_of_create qty_processed qty_desired].
    intros Hp Hd. unfold _validate_operation_data in Hvalid. rewrite Hp, Hd in Hvalid.
    destruct (check_processed_desired (Some p) (Some d)) as [[]|] eqn:Hfirst;
      [|discriminate Hvalid].
    now apply check_processed_desired_passed.
Qed.

Lemma stored_quantities_ordered_witness :
  let updated := apply_update (set_qty_processed 60)
                   (model_of_create (wo1_create "IN_PROGRESS" 100 40 (Some 0))) in
  qty_processed updated = Some 60
  /\ qty_desired updated = Some 100
  /\ 60 <= 100.
Proof.
  intros updated. split; [reflexivity|]. split; [reflexivity|].
  assert (H60 : 60 <> 0) by lia.
  assert (H100 : 100 <> 0) by lia.
  apply (proj1 (proj1 stored_quantities_ordered wo1_key (set_qty_processed 60)
                  (wo1_table "IN_PROGRESS" 100 40)
                  (<[wo1_key := updated]> (wo1_table "IN_PROGRESS" 100 40))
                  (model_of_create (wo1_create "IN_PROGRESS" 100 40 (Some 0)))
                  updated eq_refl eq_refl)
           60 100 eq_refl eq_refl H60 H100).
Defined.

(** X17: deleting what was just created restores the table: after a
    successful [create] of an operation that is not [FINISHED], [delete] of
    its key returns [True] and the table is the one before the [create];
    deleting once more returns [False]. *)
Theorem create_then_delete (data : MESOperationCreate) (db db' : Table)
    (created : MESOperation) :
  create data db = (Ok created, db') ->
  c_status data <> Some "FINISHED" ->
  let key := (c_order_no data, c_asset_id data, c_operation_no data) in
  delete key db' = (Ok true, db)
  /\ delete key db = (Ok false, db).
Proof.
  rewrite create_eq. intros Hrun Hstatus key. fold key in Hrun.
  destruct (db !! key) as [row|] eqn:Hrow; [discriminate Hrun|].
  destruct (_validate_operation_data data) as [[]|]; [|discriminate Hrun].
  injection Hrun as <- <-. split.
  - rewrite delete_eq, lookup_insert_eq. cbn [model_of_create status].
    apply opt_str_eqb_neq in Hstatus. rewrite Hstatus.
    now rewrite delete_insert_id.
  - rewrite delete_eq, Hrow. reflexivity.
Qed.

Lemma create_then_delete_witness :
  delete wo1_key {[ wo1_key := model_of_create (wo1_create "PLANNED" 100 0 (Some 0)) ]} =
  (Ok true, ∅).
Proof.
  apply (create_then_delete (wo1_create "PLANNED" 100 0 (Some 0)) ∅
           {[ wo1_key := model_of_create (wo1_create "PLANNED" 100 0 (Some 0)) ]}
           (model_of_create (wo1_create "PLANNED" 100 0 (Some 0)))).
  - reflexivity.
  - simpl. discriminate.
Defined.

Lemma opt_str_in_start (current : option string) :
  opt_str_in current ["RELEASED"; "ON_HOLD"] = true
  <-> current = Some "RELEASED" \/ current = Some "ON_HOLD".
Proof.
  destruct current as [name|]; cbn [opt_str_in existsb].
  - rewrite !orb_true_iff, !String.eqb_eq. split.
    + intros [-> | [-> | H]]; [now left|now right|discriminate H].
    + intros [H | H]; injection H as ->; auto.
  - split; [discriminate|]. intros [H | H]; discriminate H.
Qed.

(** X18: [start_operation] of a stored operation fails with the
    invalid-state error, writing nothing, unless the status is [RELEASED]
    or [ON_HOLD]; from those two it is the update that sets
    [status = IN_PROGRESS] and [actual_start_at] to the clock, so that a
    successful start stores a row in progress whose actual start is the
    time of this call (also when it resumes from [ON_HOLD]). *)
Theorem start_requires_released_or_on_hold (key : Key) (now_start now_stamp : datetime)
    (db : Table) (operation : MESOperation) :
  db !! key = Some operation ->
  (status operation <> Some "RELEASED" -> status operation <> Some "ON_HOLD" ->
   start_operation key now_start now_stamp db =
   (Raise (InvalidOperationStateException (status operation) "start operation"), db))
  /\ (status operation = Some "RELEASED" \/ status operation = Some "ON_HOLD" ->
      start_operation key now_start now_stamp db =
        update key (start_update now_start now_stamp) db
      /\ forall started db',
           start_operation key now_start now_stamp db = (Ok (Some started), db') ->
           db' !! key = Some started
           /\ status started = Some "IN_PROGRESS"
           /\ actual_start_at started = Some now_start).
Proof.
  intros Hrow. rewrite start_operation_eq, Hrow. split.
  - intros Hreleased Hhold.
    destruct (opt_str_in (status operation) ["RELEASED"; "ON_HOLD"]) eqn:Hin;
      [|reflexivity].
    apply opt_str_in_start in Hin as [H | H]; contradiction.
  - intros Hstatus. apply opt_str_in_start in Hstatus. rewrite Hstatus.
    split; [reflexivity|]. intros started db' Hrun.
    destruct (update_succeeded key _ db db' operation _ Hrow Hrun)
      as (_ & _ & _ & Hreturned & ->).
    injection Hreturned as ->. split; [apply lookup_insert_eq|]. split; reflexivity.
Qed.

Lemma start_requires_released_or_on_hold_witness :
  start_operation wo1_key 2000 2001 (wo1_table "PLANNED" 100 0) =
    (Raise (InvalidOperationStateException (Some "PLANNED") "start operation"),
     wo1_table "PLANNED" 100 0)
  /\ start_operation wo1_key 2000 2001 (wo1_table "ON_HOLD" 100 40) =
       update wo1_key (start_update 2000 2001) (wo1_table "ON_HOLD" 100 40).
Proof.
  split.
  - apply (proj1 (start_requires_released_or_on_hold wo1_key 2000 2001
                    (wo1_table "PLANNED" 100 0)
                    (model_of_create (wo1_create "PLANNED" 100 0 (Some 0))) eq_refl));
      simpl; discriminate.
  - apply (proj2 (start_requires_released_or_on_hold wo1_key 2000 2001
                    (wo1_table "ON_HOLD" 100 40)
                    (model_of_create (wo1_create "ON_HOLD" 100 40 (Some 0))) eq_refl)).
    right. reflexivity.
Defined.

(** X19: an operation that was started can be finished: after a successful
    [start_operation], [finish_operation] with no final quantity succeeds
    on the resulting table, and the stored row is [FINISHED] with the
    actual start of the start call, the actual end of the finish call and
    the processed quantity it had. *)
Theorem start_then_finish (key : Key) (now_start stamp_start now_end stamp_end : datetime)
    (db db' : Table) (started : MESOperation) :
  start_operation key now_start stamp_start db = (Ok (Some started), db') ->
  exists finished db'',
    finish_operation key None now_end stamp_end db' = (Ok (Some finished), db'')
    /\ db'' !! key = Some finished
    /\ status finished = Some "FINISHED"
    /\ actual_start_at finished = Some now_start
    /\ actual_end_at finished = Some now_end
    /\ qty_processed finished = qty_processed started.
Proof.
  rewrite start_operation_eq. intros Hrun.
  destruct (db !! key) as [operation|] eqn:Hrow; [|discriminate Hrun].
  destruct (opt_str_in (status operation) ["RELEASED"; "ON_HOLD"]);
    [|discriminate Hrun].
  destruct (update_succeeded key _ db db' operation _ Hrow Hrun)
    as (_ & Hqty & _ & Hreturned & ->).
  injection Hreturned as ->.
  set (started := apply_update (start_update now_start stamp_start) operation).
  set (finishing := finish_update None now_end stamp_end).
  exists (apply_update finishing started), (<[key := apply_update finishing started]>
                                               (<[key := started]> db)).
  split.
  - rewrite finish_operation_eq, lookup_insert_eq.
    change (status started) with (Some "IN_PROGRESS").
    change (opt_str_eqb (Some "IN_PROGRESS") (Some "IN_PROGRESS")) with true.
    change (new_MESOperationUpdate (finish_update None now_end stamp_end))
      with (Ok finishing).
    cbv iota.
    rewrite (update_eq key finishing _ started) by apply lookup_insert_eq.
    change (validate_status_update started finishing) with (Ok tt).
    change (_validate_quantities_update started finishing)
      with (_validate_quantities_update operation (start_update now_start stamp_start)).
    rewrite Hqty. reflexivity.
  - split; [apply lookup_insert_eq|]. repeat split.
Qed.

Lemma start_then_finish_witness :
  exists finished db'',
    finish_operation wo1_key None 3000 3001
      (<[wo1_key := apply_update (start_update 2000 2001)
                      (model_of_create (wo1_create "RELEASED" 100 0 (Some 0)))]>
         (wo1_table "RELEASED" 100 0)) = (Ok (Some finished), db'')
    /\ status finished = Some "FINISHED".
Proof.
  destruct (start_then_finish wo1_key 2000 2001 3000 3001 (wo1_table "RELEASED" 100 0)
              (<[wo1_key := apply_update (start_update 2000 2001)
                              (model_of_create (wo1_create "RELEASED" 100 0 (Some 0)))]>
                 (wo1_table "RELEASED" 100 0))
              (apply_update (start_update 2000 2001)
                 (model_of_create (wo1_create "RELEASED" 100 0 (Some 0)))) eq_refl)
    as (finished & db'' & Hrun & _ & Hstatus & _).
  exists finished, db''. split; [exact Hrun|exact Hstatus].
Defined.

(** X20: a finished operation stays: after a successful [finish_operation],
    [delete] of the key is refused and leaves the row in place, and
    finishing it once more is refused too. *)
Theorem finished_stays (key : Key) (final_quantity : option Z)
    (now_end now_stamp : datetime) (db db' : Table) (finished : MESOperation) :
  finish_operation key final_quantity now_end now_stamp db = (Ok (Some finished), db') ->
  db' !! key = Some finished
  /\ delete key db' =
       (Raise (InvalidOperationStateException (Some "FINISHED")
                 "delete finished operation"), db')
  /\ (forall again now_end' now_stamp',
        finish_operation key again now_end' now_stamp' db' =
        (Raise (InvalidOperationStateException (Some "FINISHED") "finish operation"), db')).
Proof.
  rewrite finish_operation_eq. intros Hrun.
  destruct (db !! key) as [operation|] eqn:Hrow; [|discriminate Hrun].
  destruct (opt_str_eqb (status operation) (Some "IN_PROGRESS")); [|discriminate Hrun].
  unfold new_MESOperationUpdate in Hrun.
  destruct (update_fields_valid _); [|discriminate Hrun].
  destruct (update_succeeded key _ db db' operation _ Hrow Hrun)
    as (_ & _ & _ & Hreturned & ->).
  injection Hreturned as ->.
  assert (Hstored : <[key := apply_update (finish_update final_quantity now_end now_stamp)
                               operation]> db !! key =
                    Some (apply_update (finish_update final_quantity now_end now_stamp)
                            operation))
    by apply lookup_insert_eq.
  split; [exact Hstored|]. split.
  - rewrite delete_eq, Hstored. reflexivity.
  - intros again now_end' now_stamp'. rewrite finish_operation_eq, Hstored. reflexivity.
Qed.

Lemma finished_stays_witness :
  let finished := apply_update (finish_update (Some 100) 3000 3001)
                    (model_of_create (wo1_create "IN_PROGRESS" 100 40 (Some 0))) in
  let db' := <[wo1_key := finished]> (wo1_table "IN_PROGRESS" 100 40) in
  delete wo1_key db' =
  (Raise (InvalidOperationStateException (Some "FINISHED") "delete finished operation"), db').
Proof.
  intros finished db'.
  apply (finished_stays wo1_key (Some 100) 3000 3001 (wo1_table "IN_PROGRESS" 100 40)
           db' finished).
  reflexivity.
Defined.

(** The smaller of a float and a cap is not above the cap. *)
Lemma py_min_capped (x cap : ManufacturingRules.float) :
  SFltb cap cap = false ->
  SFltb cap (ManufacturingRules.py_min x cap) = false.
Proof.
  intros Hcap. unfold ManufacturingRules.py_min.
  destruct (SFltb cap x) eqn:Habove; [exact Hcap|exact Habove].
Qed.

(** X21: [calculate_efficiency] answers [None] when the actual or the
    target processing time is absent or zero, and never answers more than
    [2.0]: the ratio is capped at 200 percent. *)
Theorem calculate_efficiency_capped (operation : MESOperation) :
  (ManufacturingRules.absent_or_zero_decimal (t_actual_processing_min operation)
   \/ ManufacturingRules.absent_or_zero_decimal (t_target_processing_min operation) ->
   calculate_efficiency operation = Ok None)
  /\ (forall efficiency,
        calculate_efficiency operation = Ok (Some efficiency) ->
        SFltb (ManufacturingRules.float_lit 2) efficiency = false).
Proof.
  unfold calculate_efficiency, ManufacturingRules.absent_or_zero_decimal. split.
  - intros Habsent.
    destruct (t_actual_processing_min operation) as [actual|]; [|reflexivity].
    destruct (t_target_processing_min operation) as [target|]; [|reflexivity].
    destruct Habsent as [Hz | Hz].
    + rewrite (ManufacturingRulesFacts.decimal_truthy_zero actual) by now apply Hz.
      reflexivity.
    + rewrite (ManufacturingRulesFacts.decimal_truthy_zero target) by now apply Hz.
      now rewrite orb_true_r.
  - intros efficiency Hrun.
    destruct (t_actual_processing_min operation) as [actual|]; [|discriminate Hrun].
    destruct (t_target_processing_min operation) as [target|]; [|discriminate Hrun].
    destruct (negb (decimal_truthy actual) || negb (decimal_truthy target));
      [discriminate Hrun|].
    destruct (Qnum target =? 0); [discriminate Hrun|].
    destruct (ManufacturingRules.py_truediv _ _) as [ratio|]; [|discriminate Hrun].
    cbn [rbind] in Hrun.
    assert (Hmin : efficiency =
                   ManufacturingRules.py_min ratio (ManufacturingRules.float_lit 2))
      by congruence.
    rewrite Hmin. apply py_min_capped. vm_compute. reflexivity.
Qed.

Lemma calculate_efficiency_capped_witness :
  calculate_efficiency (model_of_create (wo1_create "PLANNED" 100 0 (Some 0))) = Ok None.
Proof.
  apply (proj1 (calculate_efficiency_capped
                  (model_of_create (wo1_create "PLANNED" 100 0 (Some 0))))).
  left. intros d Hd. discriminate Hd.
Defined.

(** *** The storage functions on their own *)

(** X22: the storage functions signal a missing key by their result, not by
    an error: [update_operation] returns [None] and [delete_operation]
    returns [False], and neither touches the table. *)
Theorem crud_missing_key (order_no : string) (asset_id : Z) (operation_no : string)
    (db : Table) :
  db !! (order_no, asset_id, operation_no) = None ->
  get_operation order_no asset_id operation_no db = (Ok None, db)
  /\ (forall u, update_operation order_no asset_id operation_no u db = (Ok None, db))
  /\ delete_operation order_no asset_id operation_no db = (Ok false, db).
Proof.
  intros Hmissing.
  unfold update_operation, delete_operation, bind, get_operation.
  rewrite Hmissing. repeat split.
Qed.

Lemma crud_missing_key_witness :
  delete_operation "WO-2" 1 "0010" (wo1_table "PLANNED" 100 0) =
  (Ok false, wo1_table "PLANNED" 100 0).
Proof.
  apply (crud_missing_key "WO-2" 1 "0010" (wo1_table "PLANNED" 100 0)).
  reflexivity.
Defined.

(** X23: [delete_operation] knows no business rule: it removes any stored
    operation, a [FINISHED] one included, returns [True], and leaves every
    other key as it was. *)
Theorem crud_delete_any_status (order_no : string) (asset_id : Z) (operation_no : string)
    (db : Table) (stored : MESOperation) :
  db !! (order_no, asset_id, operation_no) = Some stored ->
  exists db',
    delete_operation order_no asset_id operation_no db = (Ok true, db')
    /\ db' !! (order_no, asset_id, operation_no) = None
    /\ (forall other, other <> (order_no, asset_id, operation_no) ->
          db' !! other = db !! other).
Proof.
  intros Hstored. exists (base.delete (order_no, asset_id, operation_no) db).
  split; [|split].
  - unfold delete_operation, bind, get_operation. rewrite Hstored. reflexivity.
  - apply lookup_delete_eq.
  - intros other Hother. now rewrite lookup_delete_ne.
Qed.

Lemma crud_delete_any_status_witness :
  exists db',
    delete_operation "WO-1" 1 "0010" (wo1_table "FINISHED" 100 100) = (Ok true, db')
    /\ db' !! wo1_key = None.
Proof.
  destruct (crud_delete_any_status "WO-1" 1 "0010" (wo1_table "FINISHED" 100 100)
              (model_of_create (wo1_create "FINISHED" 100 100 (Some 0))) eq_refl)
    as (db' & Hrun & Hgone & _).
  exists db'. split; [exact Hrun|exact Hgone].
Defined.



End ServiceFacts.

(** ** The state-machine validation of the enhanced service *)

Module ServiceEnhancedFacts.
Import StateMachine.

(** X29: the enhanced service asks the state machine without a context, so
    its [_validate_state_transition] lets through only a known status
    kept as it is, and the release of a planned operation; every other
    change of status is refused with the invalid-state error, the
    cancellations and the start among them. *)
Theorem enhanced_validation_accepts (current_status new_status : string) :
  ServiceEnhanced._validate_state_transition current_status new_status = Ok tt <->
  (current_status = new_status /\ OperationStatus_of current_status <> None)
  \/ (current_status = "PLANNED" /\ new_status = "RELEASED").
Proof.
  unfold ServiceEnhanced._validate_state_transition, can_transition.
  destruct (OperationStatus_of current_status) as [from_status|] eqn:Hfrom.
  - destruct (OperationStatus_of new_status) as [to_status|] eqn:Hto.
    + apply StateMachineFacts.OperationStatus_of_Some in Hfrom, Hto.
      subst current_status new_status.
      destruct from_status, to_status; vm_compute;
        (split; [intros H; first [discriminate H
                                 | left; split; [reflexivity|discriminate]
                                 | right; split; reflexivity]
                |intros [[H _] | [H1 H2]];
                 first [reflexivity | discriminate H | discriminate H1 | discriminate H2]]).
    + cbn [rbind negb]. split; [discriminate|].
      intros [[Hsame _] | [_ Hreleased]].
      * subst new_status. congruence.
      * subst new_status. discriminate Hto.
  - cbn [rbind negb]. split; [discriminate|].
    intros [[_ Hknown] | [Hplanned _]].
    + now contradiction Hknown.
    + subst current_status. discriminate Hfrom.
Qed.

End ServiceEnhancedFacts.
